(** * rush-lib: RepoStateFile and CustomTipsConfiguration

    A shallow embedding of [apps/rush-lib/src/logic/RepoStateFile.ts] and of
    the custom-tips configuration class, with the properties of the design
    document stated over it.

    Conventions.
    - A JavaScript string is a [string]; [indexOf] and [substr] become
      [String.index] and [String.substring], which agree with them on
      non-negative arguments ([-1] is [None]).
    - [undefined] is [None]; a call that may throw returns a [Completion].
    - A mutable object ([this], the file system, the terminal) is threaded
      explicitly: a method returns the new object next to its result.
    - The libraries the classes call into (file system, JSON reader and
      writer, lockfile loader, word wrapper) are interfaces: type classes
      whose methods are the calls the source makes. *)

From Stdlib Require Import ZArith Ascii String.
From stdpp Require Import base gmap strings list pretty.

Set Warnings "-register-all".

(** ** JavaScript prelude *)

Module Js.

(** [NewlineKind.Lf], the one-character string ["\n"]. *)
Definition LF : string := String "010"%char EmptyString.

(** The double-quote character as a string. *)
Definition DQUOTE : string := String "034"%char EmptyString.

Inductive NewlineKind := CrLf | Lf | OsDefault.

(** What a [throw] carries.  The classes below distinguish errors only by
    [FileSystem.isNotExistError]; the other constructors keep apart the
    places an error comes from. *)
Inductive JsError :=
| NotExistError (path : string)
| IoError (path : string)
| SyntaxError (message : string)
| SchemaError (filename : string)
| NewError (message : string).

Inductive Completion (A : Type) :=
| Return (a : A)
| Throw (e : JsError).
Global Arguments Return {A} a.
Global Arguments Throw {A} e.

Definition bind {A B} (c : Completion A) (k : A → Completion B) : Completion B :=
  match c with
  | Return a => k a
  | Throw e => Throw e
  end.

(** A parsed JSON document.  Numbers carry an integer: no schema below
    admits a number, only whether one is zero is ever looked at. *)
Inductive JsonValue :=
| JNull
| JBool (b : bool)
| JNumber (n : Z)
| JString (s : string)
| JArray (items : list JsonValue)
| JObject (members : list (string * JsonValue)).

(** [if (v)] on a parsed document. *)
Definition truthy (v : JsonValue) : bool :=
  match v with
  | JNull => false
  | JBool b => b
  | JNumber n => negb (n =? 0)%Z
  | JString s => negb (String.eqb s EmptyString)
  | JArray _ | JObject _ => true
  end.

(** [if (s)] on a [string | undefined]. *)
Definition truthyString (s : option string) : bool :=
  match s with
  | Some s => negb (String.eqb s EmptyString)
  | None => false
  end.

(** [obj.key] on a plain object: the first member of that name. *)
Fixpoint getMember (members : list (string * JsonValue)) (key : string) : option JsonValue :=
  match members with
  | [] => None
  | (k, v) :: rest => if String.eqb k key then Some v else getMember rest key
  end.

Definition getProperty (v : JsonValue) (key : string) : option JsonValue :=
  match v with
  | JObject members => getMember members key
  | _ => None
  end.

(** A property whose schema type is [string], read as [string | undefined]. *)
Definition getStringProperty (v : JsonValue) (key : string) : option string :=
  match getProperty v key with
  | Some (JString s) => Some s
  | _ => None
  end.

(** [s.indexOf(needle, from)] *)
Definition indexOf (s needle : string) (from : nat) : option nat :=
  index from needle s.

(** [s.substr(start, len)] *)
Definition substr (s : string) (start len : nat) : string :=
  substring start len s.

(** [s.includes(needle)] *)
Definition includes (s needle : string) : bool :=
  match index 0 needle s with
  | Some _ => true
  | None => false
  end.

(** [s.split('\n')]: never empty, the empty string splits into one empty
    line. *)
Fixpoint splitLines (s : string) : list string :=
  match s with
  | EmptyString => [EmptyString]
  | String c rest =>
      if Ascii.eqb c "010"%char then EmptyString :: splitLines rest
      else match splitLines rest with
           | [] => [String c EmptyString]
           | line :: lines => String c line :: lines
           end
  end.

(** No newline in [s]. *)
Fixpoint lineFree (s : string) : bool :=
  match s with
  | EmptyString => true
  | String c rest => negb (Ascii.eqb c "010"%char) && lineFree rest
  end.

(** [FileSystem.isNotExistError(error)] *)
Definition isNotExistError (e : JsError) : bool :=
  match e with
  | NotExistError _ => true
  | _ => false
  end.

End Js.
Export Js.

Notation "x ← c ;;; k" := (Js.bind c (fun x => k))
  (at level 20, c at level 100, k at level 200, only parsing).

(** ** Interfaces of the collaborating libraries *)

(** [FileSystem] of node-core-library, over a file-system state [FS]. *)
Class FileSystem (FS : Type) := {
  readFile : FS → string → Completion string;
  writeFile : FS → string → string → Completion FS;
  fileExists : FS → string → bool
}.

(** [JsonFile] of node-core-library: [parseString] throws on text it cannot
    read; [stringify] takes the [newlineConversion] option. *)
Class JsonFile := {
  parseString : string → Completion JsonValue;
  stringify : JsonValue → option NewlineKind → string
}.

(** ** RepoStateFile.ts *)

Module RepoStateFile.

(** *** The configuration objects [refreshState] reads *)

Inductive PackageManagerName := pnpm | npm | yarn.

Record PnpmOptionsConfiguration := {
  preventManualShrinkwrapChanges : bool;
  useWorkspaces : bool
}.

(** [rushConfiguration.experimentsConfiguration.configuration] *)
Record IExperimentsJson := {
  omitImportersFromPreventManualShrinkwrapChanges : option bool
}.

(** A loaded lockfile: [getShrinkwrapHash({ omitImporters })]. *)
Record PnpmShrinkwrapFile := {
  getShrinkwrapHash : option bool → string
}.

Record CommonVersionsConfiguration := {
  getPreferredVersionsHash : string
}.

Record RushConfiguration := {
  packageManager : PackageManagerName;
  pnpmOptions : option PnpmOptionsConfiguration;
  experimentsConfiguration : IExperimentsJson;
  getCommittedShrinkwrapFilename : option string → string;
  getCommonVersions : option string → CommonVersionsConfiguration
}.

(** The static [PnpmShrinkwrapFile.loadFromFile(filename, pnpmOptions)]:
    [undefined] when there is no lockfile of that name. *)
Class PnpmShrinkwrapFileLoader := {
  PnpmShrinkwrapFile_loadFromFile :
    string → option PnpmOptionsConfiguration → option PnpmShrinkwrapFile
}.

(** *** The class *)

(** The private fields of a [RepoStateFile] instance. *)
Record t := {
  _repoStateFilePath : string;
  _variant : option string;
  _pnpmShrinkwrapHash : option string;
  _preferredVersionsHash : option string;
  _isValid : bool;
  _modified : bool
}.

Definition set_pnpmShrinkwrapHash (this : t) (h : option string) : t :=
  {| _repoStateFilePath := _repoStateFilePath this;
     _variant := _variant this;
     _pnpmShrinkwrapHash := h;
     _preferredVersionsHash := _preferredVersionsHash this;
     _isValid := _isValid this;
     _modified := _modified this |}.

Definition set_preferredVersionsHash (this : t) (h : option string) : t :=
  {| _repoStateFilePath := _repoStateFilePath this;
     _variant := _variant this;
     _pnpmShrinkwrapHash := _pnpmShrinkwrapHash this;
     _preferredVersionsHash := h;
     _isValid := _isValid this;
     _modified := _modified this |}.

Definition set_isValid (this : t) (b : bool) : t :=
  {| _repoStateFilePath := _repoStateFilePath this;
     _variant := _variant this;
     _pnpmShrinkwrapHash := _pnpmShrinkwrapHash this;
     _preferredVersionsHash := _preferredVersionsHash this;
     _isValid := b;
     _modified := _modified this |}.

Definition set_modified (this : t) (b : bool) : t :=
  {| _repoStateFilePath := _repoStateFilePath this;
     _variant := _variant this;
     _pnpmShrinkwrapHash := _pnpmShrinkwrapHash this;
     _preferredVersionsHash := _preferredVersionsHash this;
     _isValid := _isValid this;
     _modified := b |}.

(** The private constructor: the hashes are copied only from a truthy
    [repoStateJson]; [_modified] starts [false]. *)
Definition new (repoStateJson : option JsonValue) (isValid : bool)
    (filePath : string) (variant : option string) : t :=
  let json := match repoStateJson with
              | Some v => if truthy v then Some v else None
              | None => None
              end in
  {| _repoStateFilePath := filePath;
     _variant := variant;
     _pnpmShrinkwrapHash :=
       match json with Some v => getStringProperty v "pnpmShrinkwrapHash" | None => None end;
     _preferredVersionsHash :=
       match json with Some v => getStringProperty v "preferredVersionsHash" | None => None end;
     _isValid := isValid;
     _modified := false |}.

(** The public getters. *)
Definition filePath (this : t) : string := _repoStateFilePath this.
Definition pnpmShrinkwrapHash (this : t) : option string := _pnpmShrinkwrapHash this.
Definition preferredVersionsHash (this : t) : option string := _preferredVersionsHash this.
Definition isValid (this : t) : bool := _isValid this.

(** Modelled from the spec: [schemas/repo-state.schema.json] is not among
    the sources.  The record has two optional string fields and unknown
    fields are rejected. *)
Definition _jsonSchema (v : JsonValue) : bool :=
  match v with
  | JObject members =>
      forallb (fun kv : string * JsonValue =>
                 (String.eqb (fst kv) "pnpmShrinkwrapHash"
                  || String.eqb (fst kv) "preferredVersionsHash")
                 && match snd kv with JString _ => true | _ => false end)
              members
  | _ => false
  end.

(** [this._jsonSchema.validateObject(repoStateJson, jsonFilename)] *)
Definition validateObject (v : JsonValue) (jsonFilename : string) : Completion unit :=
  if _jsonSchema v then Return tt else Throw (SchemaError jsonFilename).

Definition mergeConflictMarker : string := "<<<<<<<".

(** The object literal assigned when a marker is found. *)
Definition invalidRepoStateJson : JsonValue :=
  JObject [("preferredVersionsHash", JString "INVALID");
           ("pnpmShrinkwrapHash", JString "INVALID")].

(** The [for] loop of the [catch] block, entered with [nextNewlineIndex]
    and one unit of [fuel] per iteration.  [Some b] is the value of
    [foundMergeConflictMarker] when the loop ends; [None] means the fuel ran
    out first. *)
Fixpoint scanLoop (fuel : nat) (fileContents : string) (nextNewlineIndex : nat)
    : option bool :=
  match fuel with
  | 0 => None
  | S fuel' =>
      if String.eqb (substr fileContents (nextNewlineIndex + 1) 7) mergeConflictMarker
      then Some true
      else match indexOf fileContents LF (nextNewlineIndex + 1) with
           | Some next => scanLoop fuel' fileContents next
           | None => Some false
           end
  end.

(** The loop as [loadFromFile] runs it: from index 0, with more fuel than
    the content has characters ([scanLoop_total] shows this is enough). *)
Definition foundMergeConflictMarker (fileContents : string) : bool :=
  match scanLoop (S (String.length fileContents)) fileContents 0 with
  | Some true => true
  | _ => false
  end.

(** The indices the loop started at [i] takes for line ends: [i] itself
    and every later newline. *)
Definition scanned (s : string) (i j : nat) : Prop :=
  i ≤ j ∧ (j = i ∨ get j s = Some "010"%char).

(** The design document's wording for the same test, "a line beginning with
    seven [<] characters", over the lines of the content. *)
Definition beginsWithMarker (line : string) : bool :=
  String.prefix mergeConflictMarker line.

Definition hasConflictLine (fileContents : string) : bool :=
  existsb beginsWithMarker (splitLines fileContents).

Section Methods.
Context {FS : Type} {fileSystem : FileSystem FS} {jsonFile : JsonFile}
  {lockfileLoader : PnpmShrinkwrapFileLoader}.

(** The first [try] of [loadFromFile]: the content, [undefined] when the
    file does not exist; any other failure is thrown again. *)
Definition readFileIfExists (fs : FS) (jsonFilename : string) : Completion (option string) :=
  match readFile fs jsonFilename with
  | Return contents => Return (Some contents)
  | Throw error => if isNotExistError error then Return None else Throw error
  end.

(** The second [try]: [(foundMergeConflictMarker, repoStateJson)] after it.
    The [catch] block does not throw again. *)
Definition parseOrFindMarker (fileContents : string) : bool * option JsonValue :=
  match parseString fileContents with
  | Return repoStateJson => (false, Some repoStateJson)
  | Throw _ =>
      if foundMergeConflictMarker fileContents
      then (true, Some invalidRepoStateJson)
      else (false, None)
  end.

(** [if (repoStateJson) { this._jsonSchema.validateObject(...) }] *)
Definition validateIfPresent (repoStateJson : option JsonValue) (jsonFilename : string)
    : Completion unit :=
  match repoStateJson with
  | Some v => if truthy v then validateObject v jsonFilename else Return tt
  | None => Return tt
  end.

(** [RepoStateFile.loadFromFile(jsonFilename, variant)] *)
Definition loadFromFile (fs : FS) (jsonFilename : string) (variant : option string)
    : Completion t :=
  fileContents ← readFileIfExists fs jsonFilename;;;
  match fileContents with
  | Some contents =>
      if truthyString (Some contents) then
        let '(foundMarker, repoStateJson) := parseOrFindMarker contents in
        _ ← validateIfPresent repoStateJson jsonFilename;;;
        Return (new repoStateJson (negb foundMarker) jsonFilename variant)
      else Return (new None true jsonFilename variant)
  | None => Return (new None true jsonFilename variant)
  end.

(** [rushConfiguration.packageManager === 'pnpm' && rushConfiguration.pnpmOptions
     && rushConfiguration.pnpmOptions.preventManualShrinkwrapChanges] *)
Definition preventShrinkwrapChanges (rushConfiguration : RushConfiguration) : bool :=
  match packageManager rushConfiguration with
  | pnpm =>
      match pnpmOptions rushConfiguration with
      | Some options => preventManualShrinkwrapChanges options
      | None => false
      end
  | _ => false
  end.

(** [rushConfiguration.pnpmOptions && rushConfiguration.pnpmOptions.useWorkspaces] *)
Definition usesWorkspaces (rushConfiguration : RushConfiguration) : bool :=
  match pnpmOptions rushConfiguration with
  | Some options => useWorkspaces options
  | None => false
  end.

(** [a !== b] on [string | undefined]. *)
Definition strictNotEqual (a b : option string) : bool :=
  match a, b with
  | Some x, Some y => negb (String.eqb x y)
  | None, None => false
  | _, _ => true
  end.

(** [if (value) { repoStateJson[key] = value; }] *)
Definition setIfTruthy (key : string) (value : option string) : list (string * JsonValue) :=
  match value with
  | Some hash => if truthyString (Some hash) then [(key, JString hash)] else []
  | None => []
  end.

(** The object [_serialize] hands to [JsonFile.stringify]. *)
Definition serializedJson (this : t) : JsonValue :=
  JObject (setIfTruthy "pnpmShrinkwrapHash" (_pnpmShrinkwrapHash this)
           ++ setIfTruthy "preferredVersionsHash" (_preferredVersionsHash this)).

Definition _serialize (this : t) : string :=
  stringify (serializedJson this) (Some Lf).

Definition banner : string :=
  "// DO NOT MODIFY THIS FILE MANUALLY BUT DO COMMIT IT. It is generated and used by Rush.".

(** The text [_saveIfModified] writes. *)
Definition fileContent (this : t) : string :=
  banner +:+ LF +:+ _serialize this.

(** [_saveIfModified()]: the result, the instance and the file system
    afterwards.  A write that throws leaves [_modified] set. *)
Definition _saveIfModified (this : t) (fs : FS) : Completion bool * t * FS :=
  if _modified this then
    match writeFile fs (_repoStateFilePath this) (fileContent this) with
    | Return fs' => (Return true, set_modified this false, fs')
    | Throw error => (Throw error, this, fs)
    end
  else (Return false, this, fs).

(** The first half of [refreshState]: the lockfile hash. *)
Definition refreshShrinkwrapHash (this : t) (rushConfiguration : RushConfiguration) : t :=
  if preventShrinkwrapChanges rushConfiguration then
    match PnpmShrinkwrapFile_loadFromFile
            (getCommittedShrinkwrapFilename rushConfiguration (_variant this))
            (pnpmOptions rushConfiguration) with
    | Some pnpmShrinkwrapFile =>
        let shrinkwrapFileHash :=
          getShrinkwrapHash pnpmShrinkwrapFile
            (omitImportersFromPreventManualShrinkwrapChanges
               (experimentsConfiguration rushConfiguration)) in
        if strictNotEqual (_pnpmShrinkwrapHash this) (Some shrinkwrapFileHash)
        then set_modified (set_pnpmShrinkwrapHash this (Some shrinkwrapFileHash)) true
        else this
    | None => this
    end
  else if strictNotEqual (_pnpmShrinkwrapHash this) None
  then set_modified (set_pnpmShrinkwrapHash this None) true
  else this.

(** The second half: the preferred-versions hash. *)
Definition refreshPreferredVersionsHash (this : t) (rushConfiguration : RushConfiguration) : t :=
  if usesWorkspaces rushConfiguration then
    let commonVersions := getCommonVersions rushConfiguration (_variant this) in
    let preferredVersionsHash := getPreferredVersionsHash commonVersions in
    if strictNotEqual (_preferredVersionsHash this) (Some preferredVersionsHash)
    then set_modified (set_preferredVersionsHash this (Some preferredVersionsHash)) true
    else this
  else if strictNotEqual (_preferredVersionsHash this) None
  then set_modified (set_preferredVersionsHash this None) true
  else this.

(** [refreshState] up to its last statement: both halves, then
    [this._isValid = true]. *)
Definition refreshFields (this : t) (rushConfiguration : RushConfiguration) : t :=
  let this := refreshShrinkwrapHash this rushConfiguration in
  let this := refreshPreferredVersionsHash this rushConfiguration in
  set_isValid this true.

(** [refreshState(rushConfiguration)] *)
Definition refreshState (this : t) (rushConfiguration : RushConfiguration) (fs : FS)
    : Completion bool * t * FS :=
  _saveIfModified (refreshFields this rushConfiguration) fs.

End Methods.

End RepoStateFile.

(** ** CustomTipsConfiguration.ts *)

Module CustomTipsConfiguration.

(** An item of the [customTips] list, as it comes out of the JSON file:
    [tipId] is whatever string the file holds. *)
Record ICustomTipItemJson := {
  tipId : string;
  message : string
}.

Record ICustomTipsJson := {
  customTips : option (list ICustomTipItemJson)
}.

Inductive CustomTipId :=
| TIP_PNPM_UNEXPECTED_STORE
| TIP_RUSH_INCONSISTENT_VERSIONS
| TIP_PNPM_NO_MATCHING_VERSION
| TIP_PNPM_NO_MATCHING_VERSION_INSIDE_WORKSPACE
| TIP_PNPM_PEER_DEP_ISSUES
| TIP_PNPM_OUTDATED_LOCKFILE
| TIP_PNPM_TARBALL_INTEGRITY
| TIP_PNPM_MISMATCHED_RELEASE_CHANNEL
| TIP_PNPM_INVALID_NODE_VERSION.

(** The string value of an enum member (each member is its own name). *)
Definition idString (id : CustomTipId) : string :=
  match id with
  | TIP_PNPM_UNEXPECTED_STORE => "TIP_PNPM_UNEXPECTED_STORE"
  | TIP_RUSH_INCONSISTENT_VERSIONS => "TIP_RUSH_INCONSISTENT_VERSIONS"
  | TIP_PNPM_NO_MATCHING_VERSION => "TIP_PNPM_NO_MATCHING_VERSION"
  | TIP_PNPM_NO_MATCHING_VERSION_INSIDE_WORKSPACE =>
      "TIP_PNPM_NO_MATCHING_VERSION_INSIDE_WORKSPACE"
  | TIP_PNPM_PEER_DEP_ISSUES => "TIP_PNPM_PEER_DEP_ISSUES"
  | TIP_PNPM_OUTDATED_LOCKFILE => "TIP_PNPM_OUTDATED_LOCKFILE"
  | TIP_PNPM_TARBALL_INTEGRITY => "TIP_PNPM_TARBALL_INTEGRITY"
  | TIP_PNPM_MISMATCHED_RELEASE_CHANNEL => "TIP_PNPM_MISMATCHED_RELEASE_CHANNEL"
  | TIP_PNPM_INVALID_NODE_VERSION => "TIP_PNPM_INVALID_NODE_VERSION"
  end.

Definition allCustomTipIds : list CustomTipId :=
  [TIP_PNPM_UNEXPECTED_STORE; TIP_RUSH_INCONSISTENT_VERSIONS;
   TIP_PNPM_NO_MATCHING_VERSION; TIP_PNPM_NO_MATCHING_VERSION_INSIDE_WORKSPACE;
   TIP_PNPM_PEER_DEP_ISSUES; TIP_PNPM_OUTDATED_LOCKFILE;
   TIP_PNPM_TARBALL_INTEGRITY; TIP_PNPM_MISMATCHED_RELEASE_CHANNEL;
   TIP_PNPM_INVALID_NODE_VERSION].

Inductive CustomTipSeverity := Warning | Error | Info.

Inductive CustomTipType := rush | pnpm.

Record ICustomTipInfo := {
  infoTipId : CustomTipId;
  severity : CustomTipSeverity;
  type : CustomTipType;
  isMatch : option (string → bool)
}.

Definition customTipRegistry (id : CustomTipId) : ICustomTipInfo :=
  match id with
  | TIP_RUSH_INCONSISTENT_VERSIONS =>
      {| infoTipId := TIP_RUSH_INCONSISTENT_VERSIONS; severity := Error; type := rush;
         isMatch := None |}
  | TIP_PNPM_UNEXPECTED_STORE =>
      {| infoTipId := TIP_PNPM_UNEXPECTED_STORE; severity := Error; type := pnpm;
         isMatch := Some (fun str => includes str "ERR_PNPM_UNEXPECTED_STORE") |}
  | TIP_PNPM_NO_MATCHING_VERSION =>
      {| infoTipId := TIP_PNPM_NO_MATCHING_VERSION; severity := Error; type := pnpm;
         isMatch := Some (fun str => includes str "No matching version found for"
                                     && includes str "The latest release of") |}
  | TIP_PNPM_NO_MATCHING_VERSION_INSIDE_WORKSPACE =>
      {| infoTipId := TIP_PNPM_NO_MATCHING_VERSION_INSIDE_WORKSPACE; severity := Error;
         type := pnpm;
         isMatch := Some (fun str =>
                            includes str "ERR_PNPM_NO_MATCHING_VERSION_INSIDE_WORKSPACE") |}
  | TIP_PNPM_PEER_DEP_ISSUES =>
      {| infoTipId := TIP_PNPM_PEER_DEP_ISSUES; severity := Error; type := pnpm;
         isMatch := Some (fun str => includes str "ERR_PNPM_PEER_DEP_ISSUES") |}
  | TIP_PNPM_OUTDATED_LOCKFILE =>
      {| infoTipId := TIP_PNPM_OUTDATED_LOCKFILE; severity := Error; type := pnpm;
         isMatch := Some (fun str => includes str "ERR_PNPM_OUTDATED_LOCKFILE") |}
  | TIP_PNPM_TARBALL_INTEGRITY =>
      {| infoTipId := TIP_PNPM_TARBALL_INTEGRITY; severity := Error; type := pnpm;
         isMatch := Some (fun str => includes str "ERR_PNPM_TARBALL_INTEGRITY") |}
  | TIP_PNPM_MISMATCHED_RELEASE_CHANNEL =>
      {| infoTipId := TIP_PNPM_MISMATCHED_RELEASE_CHANNEL; severity := Error; type := pnpm;
         isMatch := Some (fun str => includes str "ERR_PNPM_MISMATCHED_RELEASE_CHANNEL") |}
  | TIP_PNPM_INVALID_NODE_VERSION =>
      {| infoTipId := TIP_PNPM_INVALID_NODE_VERSION; severity := Error; type := pnpm;
         isMatch := Some (fun str => includes str "ERR_PNPM_INVALID_NODE_VERSION") |}
  end.

(** The own keys of the object the string enum [CustomTipId] compiles to. *)
Definition ownKeys : list string := map idString allCustomTipIds.

(** The property names a plain object inherits from [Object.prototype]. *)
Definition objectPrototypeKeys : list string :=
  ["constructor"; "hasOwnProperty"; "isPrototypeOf"; "propertyIsEnumerable";
   "toLocaleString"; "toString"; "valueOf"; "__proto__";
   "__defineGetter__"; "__defineSetter__"; "__lookupGetter__"; "__lookupSetter__"].

Definition isEnumMember (key : string) : bool := existsb (String.eqb key) ownKeys.

Definition isInherited (key : string) : bool := existsb (String.eqb key) objectPrototypeKeys.

(** [key in CustomTipId]: the [in] operator answers for own and for
    inherited properties. *)
Definition inCustomTipId (key : string) : bool := isEnumMember key || isInherited key.

(** [JsonFile.loadAndValidate(file, CustomTipsConfiguration._jsonSchema)]:
    the schema is not among the sources, the call is an interface method. *)
Class CustomTipsJsonLoader (FS : Type) := {
  loadAndValidate : FS → string → Completion ICustomTipsJson
}.

(** [path.basename] *)
Class Path := {
  basename : string → string
}.

(** [PrintUtilities.wrapWords(text, maxLineLength, indent)] *)
Class PrintUtilities := {
  wrapWords : string → option nat → nat → string
}.

(** What was written to an [ITerminal], oldest first. *)
Inductive TerminalWrite :=
| write (text : string)
| writeLine (text : string)
| writeWarning (text : string)
| writeWarningLine (text : string)
| writeError (text : string)
| writeErrorLine (text : string).

(** The fields of a [CustomTipsConfiguration] instance. *)
Record t := {
  _tipMap : gmap string ICustomTipItemJson;
  _jsonFileName : string;
  configuration : ICustomTipsJson
}.

Section Methods.
Context {FS : Type} {fileSystem : FileSystem FS} {tipsLoader : CustomTipsJsonLoader FS}
  {path : Path} {printUtilities : PrintUtilities}.

Definition unknownIdMessage (jsonFileName id : string) : string :=
  "The " +:+ basename jsonFileName +:+ " configuration"
  +:+ " references an unknown ID " +:+ DQUOTE +:+ id +:+ DQUOTE.

Definition duplicateIdMessage (jsonFileName id : string) : string :=
  "The " +:+ basename jsonFileName +:+ " configuration"
  +:+ " specifies a duplicate definition for " +:+ DQUOTE +:+ id +:+ DQUOTE.

(** The [for (const tipItem of customTips)] loop of the constructor, from
    the map built so far. *)
Fixpoint registerTips (jsonFileName : string) (customTips : list ICustomTipItemJson)
    (tipMap : gmap string ICustomTipItemJson) : Completion (gmap string ICustomTipItemJson) :=
  match customTips with
  | [] => Return tipMap
  | tipItem :: rest =>
      if negb (inCustomTipId (tipId tipItem)) then
        Throw (NewError (unknownIdMessage jsonFileName (tipId tipItem)))
      else if bool_decide (is_Some (tipMap !! tipId tipItem)) then
        Throw (NewError (duplicateIdMessage jsonFileName (tipId tipItem)))
      else registerTips jsonFileName rest (<[tipId tipItem := tipItem]> tipMap)
  end.

(** [new CustomTipsConfiguration(configFilename)] *)
Definition new (fs : FS) (configFilename : string) : Completion t :=
  if negb (fileExists fs configFilename) then
    Return {| _tipMap := ∅; _jsonFileName := configFilename;
              configuration := {| customTips := None |} |}
  else
    loaded ← loadAndValidate fs configFilename;;;
    match customTips loaded with
    | Some tips =>
        tipMap ← registerTips configFilename tips ∅;;;
        Return {| _tipMap := tipMap; _jsonFileName := configFilename;
                  configuration := loaded |}
    | None =>
        Return {| _tipMap := ∅; _jsonFileName := configFilename;
                  configuration := loaded |}
    end.

Definition _formatMessageHeader (tipId : CustomTipId) : string :=
  "| Custom Tip (" +:+ idString tipId +:+ ")" +:+ LF +:+ "|".

(** [line.replace(/^ {2}/, '')] *)
Definition removeIndent (line : string) : string :=
  match line with
  | String " " (String " " rest) => rest
  | _ => line
  end.

(** The body of the [forEach] callback: the writes for one line. *)
Definition writeLineWithPipe (severity : CustomTipSeverity) (line : string)
    : list TerminalWrite :=
  let line := removeIndent line in
  [match severity with
   | Error => writeError "| "
   | Warning => writeWarning "| "
   | Info => writeLine "| "
   end;
   writeLine line].

(** [_writeMessageWithPipes(terminal, severity, tipId)]: the terminal
    afterwards. *)
Definition _writeMessageWithPipes (this : t) (terminal : list TerminalWrite)
    (severity : CustomTipSeverity) (tipId : CustomTipId) : list TerminalWrite :=
  let messageHeader := _formatMessageHeader tipId in
  match _tipMap this !! idString tipId with
  | None => terminal
  | Some customTipJsonItem =>
      let message := message customTipJsonItem in
      let indentToBeRemovedLatter := 2 in
      let wrappedAndIndentedMessage := wrapWords message None indentToBeRemovedLatter in
      terminal
      ++ [match severity with
          | Error => writeErrorLine messageHeader
          | Warning => writeWarningLine messageHeader
          | Info => writeLine messageHeader
          end]
      ++ concat (map (writeLineWithPipe severity) (splitLines wrappedAndIndentedMessage))
      ++ [write LF]
  end.

(** The lines of a tip's message as [_writeMessageWithPipes] cuts them:
    wrapped with an indent of two, split, the indent taken off again. *)
Definition messageLines (item : ICustomTipItemJson) : list string :=
  map removeIndent (splitLines (wrapWords (message item) None 2)).

Definition _showTip (this : t) (terminal : list TerminalWrite) (tipId : CustomTipId)
    : list TerminalWrite :=
  match _tipMap this !! idString tipId with
  | None => terminal
  | Some _ =>
      let severityOfOriginalMessage := severity (customTipRegistry tipId) in
      _writeMessageWithPipes this terminal severityOfOriginalMessage tipId
  end.

Definition _showInfoTip (this : t) (terminal : list TerminalWrite) (tipId : CustomTipId)
    : list TerminalWrite :=
  _writeMessageWithPipes this terminal Info tipId.

Definition _showWarningTip (this : t) (terminal : list TerminalWrite) (tipId : CustomTipId)
    : list TerminalWrite :=
  _writeMessageWithPipes this terminal Warning tipId.

Definition _showErrorTip (this : t) (terminal : list TerminalWrite) (tipId : CustomTipId)
    : list TerminalWrite :=
  _writeMessageWithPipes this terminal Error tipId.

End Methods.

(** [margin] and a newline around every line. *)
Fixpoint framed (margin : string) (lines : list string) : string :=
  match lines with
  | [] => EmptyString
  | line :: rest => margin +:+ line +:+ LF +:+ framed margin rest
  end.

(** The characters a sequence of writes puts on the terminal, colours
    aside: a [...Line] write ends its text with a newline. *)
Definition written (w : TerminalWrite) : string :=
  match w with
  | write text | writeWarning text | writeError text => text
  | writeLine text | writeWarningLine text | writeErrorLine text => text +:+ LF
  end.

Fixpoint display (terminal : list TerminalWrite) : string :=
  match terminal with
  | [] => EmptyString
  | w :: rest => written w +:+ display rest
  end.

(** The severity a write is made at. *)
Definition writeSeverity (w : TerminalWrite) : CustomTipSeverity :=
  match w with
  | write _ | writeLine _ => Info
  | writeWarning _ | writeWarningLine _ => Warning
  | writeError _ | writeErrorLine _ => Error
  end.

End CustomTipsConfiguration.

(** ** Reference collaborators

    An in-memory file system, a reader and writer for the JSON subset the
    two configuration files use, and fixed stand-ins for the other
    libraries.  Most properties below are stated for every implementation
    of the interfaces, and these serve to run the model on concrete inputs;
    the properties of the record as it is persisted are stated on the file
    system and on the JSON reader and writer given here. *)

Module Reference.

(** Modelled from the spec: [FileSystem] of node-core-library is not among
    the sources.  The design document takes reading and writing a file as
    primitives: a file system is the content of each file that exists, a
    read of a file that does not exist is reported as such, and a write
    replaces the whole content of the file at the path. *)
Definition memoryFileSystem : FileSystem (gmap string string) := {|
  readFile fs path :=
    match fs !! path with
    | Some contents => Return contents
    | None => Throw (NotExistError path)
    end;
  writeFile fs path contents := Return (<[path := contents]> fs);
  fileExists fs path := bool_decide (is_Some (fs !! path))
|}.

(** The same file system keeping a journal of the writes made, newest
    first. *)
Definition journalFileSystem
    : FileSystem (gmap string string * list (string * string)) := {|
  readFile fs path :=
    match fs.1 !! path with
    | Some contents => Return contents
    | None => Throw (NotExistError path)
    end;
  writeFile fs path contents := Return (<[path := contents]> fs.1, (path, contents) :: fs.2);
  fileExists fs path := bool_decide (is_Some (fs.1 !! path))
|}.

(** The in-memory file system with some paths out of reach: reading or
    writing one of them fails with an error that is not "no such file". *)
Definition guardedFileSystem (denied : gset string) : FileSystem (gmap string string) := {|
  readFile fs path :=
    if bool_decide (path ∈ denied) then Throw (IoError path)
    else match fs !! path with
         | Some contents => Return contents
         | None => Throw (NotExistError path)
         end;
  writeFile fs path contents :=
    if bool_decide (path ∈ denied) then Throw (IoError path)
    else Return (<[path := contents]> fs);
  fileExists fs path := bool_decide (is_Some (fs !! path))
|}.

(** *** Writing JSON: [JSON.stringify(value, undefined, 2)] and a final newline *)

Definition BACKSLASH : string := String "092"%char EmptyString.

Definition escapeChar (c : ascii) : string :=
  if Ascii.eqb c "034"%char then BACKSLASH +:+ DQUOTE
  else if Ascii.eqb c "092"%char then BACKSLASH +:+ BACKSLASH
  else if Ascii.eqb c "010"%char then BACKSLASH +:+ "n"
  else if Ascii.eqb c "013"%char then BACKSLASH +:+ "r"
  else if Ascii.eqb c "009"%char then BACKSLASH +:+ "t"
  else String c EmptyString.

Fixpoint escape (s : string) : string :=
  match s with
  | EmptyString => EmptyString
  | String c rest => escapeChar c +:+ escape rest
  end.

Definition quoted (s : string) : string := DQUOTE +:+ escape s +:+ DQUOTE.

Fixpoint spaces (n : nat) : string :=
  match n with
  | 0 => EmptyString
  | S n' => String " " (spaces n')
  end.

Fixpoint joinLines (items : list string) : string :=
  match items with
  | [] => EmptyString
  | [item] => item
  | item :: rest => item +:+ "," +:+ LF +:+ joinLines rest
  end.

Fixpoint stringifyAt (indent : nat) (v : JsonValue) : string :=
  match v with
  | JNull => "null"
  | JBool true => "true"
  | JBool false => "false"
  | JNumber n => pretty n
  | JString s => quoted s
  | JArray [] => "[]"
  | JArray items =>
      "[" +:+ LF
      +:+ joinLines (map (fun item => spaces (indent + 2) +:+ stringifyAt (indent + 2) item) items)
      +:+ LF +:+ spaces indent +:+ "]"
  | JObject [] => "{}"
  | JObject members =>
      "{" +:+ LF
      +:+ joinLines (map (fun '(key, value) =>
                            spaces (indent + 2) +:+ quoted key +:+ ": "
                            +:+ stringifyAt (indent + 2) value) members)
      +:+ LF +:+ spaces indent +:+ "}"
  end.

(** Modelled from the spec: [JsonFile.stringify] of node-core-library is
    not among the sources.  The persisted file format of the design
    document: the JSON object on lines of its own, one indented line for
    each field, a comma between fields, LF line endings and a final
    newline. *)
Definition writeJson (v : JsonValue) (newlineConversion : option NewlineKind) : string :=
  stringifyAt 0 v +:+ LF.

(** *** Reading JSON, with [//] comments *)

Definition isBlank (c : ascii) : bool :=
  Ascii.eqb c " " || Ascii.eqb c "010"%char || Ascii.eqb c "013"%char || Ascii.eqb c "009"%char.

Fixpoint skipLine (s : string) : string :=
  match s with
  | EmptyString => EmptyString
  | String c rest => if Ascii.eqb c "010"%char then rest else skipLine rest
  end.

Fixpoint skipBlanks (fuel : nat) (s : string) : string :=
  match fuel with
  | 0 => s
  | S fuel' =>
      match s with
      | String "/" (String "/" rest) => skipBlanks fuel' (skipLine rest)
      | String c rest => if isBlank c then skipBlanks fuel' rest else s
      | EmptyString => s
      end
  end.

Definition skip (s : string) : string := skipBlanks (String.length s) s.

Definition unescapeChar (c : ascii) : option ascii :=
  if Ascii.eqb c "034"%char then Some "034"%char
  else if Ascii.eqb c "092"%char then Some "092"%char
  else if Ascii.eqb c "/" then Some "/"%char
  else if Ascii.eqb c "n" then Some "010"%char
  else if Ascii.eqb c "r" then Some "013"%char
  else if Ascii.eqb c "t" then Some "009"%char
  else None.

(** The rest of a string literal, after its opening quote. *)
Fixpoint readString (s : string) : option (string * string) :=
  match s with
  | EmptyString => None
  | String c rest =>
      if Ascii.eqb c "034"%char then Some (EmptyString, rest)
      else if Ascii.eqb c "010"%char then None
      else if Ascii.eqb c "092"%char then
        match rest with
        | String e rest' =>
            match unescapeChar e, readString rest' with
            | Some c', Some (text, after) => Some (String c' text, after)
            | _, _ => None
            end
        | EmptyString => None
        end
      else match readString rest with
           | Some (text, after) => Some (String c text, after)
           | None => None
           end
  end.

Definition digitValue (c : ascii) : option Z :=
  let n := nat_of_ascii c in
  if (48 <=? n)%nat && (n <=? 57)%nat then Some (Z.of_nat (n - 48)) else None.

Fixpoint readDigits (acc : Z) (s : string) : Z * string :=
  match s with
  | String c rest =>
      match digitValue c with
      | Some d => readDigits (10 * acc + d) rest
      | None => (acc, s)
      end
  | EmptyString => (acc, s)
  end.

Definition readWord (word : string) (v : JsonValue) (s : string) : option (JsonValue * string) :=
  if String.prefix word s
  then Some (v, substring (String.length word) (String.length s) s)
  else None.

Fixpoint readValue (fuel : nat) (s : string) : option (JsonValue * string) :=
  match fuel with
  | 0 => None
  | S fuel' =>
      match skip s with
      | String "{" rest => readMembers fuel' [] (skip rest)
      | String "[" rest => readItems fuel' [] (skip rest)
      | String "034" rest =>
          match readString rest with
          | Some (text, after) => Some (JString text, after)
          | None => None
          end
      | String "-" (String c rest) =>
          match digitValue c with
          | Some d => let '(n, after) := readDigits d rest in Some (JNumber (- n), after)
          | None => None
          end
      | String c rest as text =>
          match digitValue c with
          | Some d => let '(n, after) := readDigits d rest in Some (JNumber n, after)
          | None =>
              match readWord "null" JNull text, readWord "true" (JBool true) text with
              | Some r, _ | None, Some r => Some r
              | None, None => readWord "false" (JBool false) text
              end
          end
      | EmptyString => None
      end
  end
with readMembers (fuel : nat) (acc : list (string * JsonValue)) (s : string)
    : option (JsonValue * string) :=
  match fuel with
  | 0 => None
  | S fuel' =>
      match s with
      | String "}" rest => match acc with [] => Some (JObject [], rest) | _ => None end
      | String "034" rest =>
          match readString rest with
          | Some (key, after) =>
              match skip after with
              | String ":" afterColon =>
                  match readValue fuel' afterColon with
                  | Some (value, afterValue) =>
                      match skip afterValue with
                      | String "," more =>
                          readMembers fuel' ((key, value) :: acc) (skip more)
                      | String "}" done =>
                          Some (JObject (rev ((key, value) :: acc)), done)
                      | _ => None
                      end
                  | None => None
                  end
              | _ => None
              end
          | None => None
          end
      | _ => None
      end
  end
with readItems (fuel : nat) (acc : list JsonValue) (s : string)
    : option (JsonValue * string) :=
  match fuel with
  | 0 => None
  | S fuel' =>
      match s with
      | String "]" rest => match acc with [] => Some (JArray [], rest) | _ => None end
      | _ =>
          match readValue fuel' s with
          | Some (value, afterValue) =>
              match skip afterValue with
              | String "," more => readItems fuel' (value :: acc) (skip more)
              | String "]" done => Some (JArray (rev (value :: acc)), done)
              | _ => None
              end
          | None => None
          end
      end
  end.

(** Modelled from the spec: [JsonFile.parseString] of node-core-library is
    not among the sources.  The state file is a comment line followed by a
    JSON value: blanks and [//] comments are skipped, one value is read,
    and nothing but blanks and comments may follow it. *)
Definition readJson (text : string) : Completion JsonValue :=
  match readValue (S (String.length text)) text with
  | Some (v, rest) =>
      match skip rest with
      | EmptyString => Return v
      | _ => Throw (SyntaxError "Unexpected text after the JSON value")
      end
  | None => Throw (SyntaxError "Not a JSON value")
  end.

Definition jsonFile : JsonFile := {|
  parseString := readJson;
  stringify := writeJson
|}.

(** *** The other collaborators *)

(** Lockfiles by name, each with the hash it reports (the same hash with
    and without importers). *)
Definition lockfiles (table : gmap string string) : RepoStateFile.PnpmShrinkwrapFileLoader := {|
  RepoStateFile.PnpmShrinkwrapFile_loadFromFile filename _ :=
    match table !! filename with
    | Some hash => Some {| RepoStateFile.getShrinkwrapHash := fun _ => hash |}
    | None => None
    end
|}.

Definition committedShrinkwrapFilename (variant : option string) : string :=
  match variant with
  | Some name => "common/config/rush/variants/" +:+ name +:+ "/pnpm-lock.yaml"
  | None => "common/config/rush/pnpm-lock.yaml"
  end.

(** A pnpm repository with the two switches as given and a fixed
    preferred-versions hash. *)
Definition rushConfiguration (preventManualShrinkwrapChanges useWorkspaces : bool)
    (preferredVersionsHash : string) : RepoStateFile.RushConfiguration := {|
  RepoStateFile.packageManager := RepoStateFile.pnpm;
  RepoStateFile.pnpmOptions :=
    Some {| RepoStateFile.preventManualShrinkwrapChanges := preventManualShrinkwrapChanges;
            RepoStateFile.useWorkspaces := useWorkspaces |};
  RepoStateFile.experimentsConfiguration :=
    {| RepoStateFile.omitImportersFromPreventManualShrinkwrapChanges := None |};
  RepoStateFile.getCommittedShrinkwrapFilename := committedShrinkwrapFilename;
  RepoStateFile.getCommonVersions := fun _ =>
    {| RepoStateFile.getPreferredVersionsHash := preferredVersionsHash |}
|}.

(** The part of a path after its last slash. *)
Fixpoint lastSegment (segment path : string) : string :=
  match path with
  | EmptyString => segment
  | String c rest =>
      if Ascii.eqb c "/" then lastSegment EmptyString rest
      else lastSegment (segment +:+ String c EmptyString) rest
  end.

Definition posixPath : CustomTipsConfiguration.Path := {|
  CustomTipsConfiguration.basename := lastSegment EmptyString
|}.

Fixpoint joinWith (separator : string) (items : list string) : string :=
  match items with
  | [] => EmptyString
  | [item] => item
  | item :: rest => item +:+ separator +:+ joinWith separator rest
  end.

(** Word wrapping on a terminal wider than every line: each line is
    indented, none is broken. *)
Definition wideTerminal : CustomTipsConfiguration.PrintUtilities := {|
  CustomTipsConfiguration.wrapWords text _ indent :=
    joinWith LF (map (fun line => spaces indent +:+ line) (splitLines text))
|}.

Definition toTipItem (v : JsonValue) : option CustomTipsConfiguration.ICustomTipItemJson :=
  match getStringProperty v "tipId", getStringProperty v "message" with
  | Some id, Some text =>
      Some {| CustomTipsConfiguration.tipId := id; CustomTipsConfiguration.message := text |}
  | _, _ => None
  end.

Definition toCustomTipsJson (v : JsonValue) : option CustomTipsConfiguration.ICustomTipsJson :=
  match v with
  | JObject members =>
      match getMember members "customTips" with
      | None => Some {| CustomTipsConfiguration.customTips := None |}
      | Some (JArray items) =>
          match mapM toTipItem items with
          | Some tips => Some {| CustomTipsConfiguration.customTips := Some tips |}
          | None => None
          end
      | Some _ => None
      end
  | _ => None
  end.

(** Reading custom-tips.json from the in-memory file system. *)
Definition customTipsLoader : CustomTipsConfiguration.CustomTipsJsonLoader (gmap string string) := {|
  CustomTipsConfiguration.loadAndValidate fs filename :=
    match fs !! filename with
    | None => Throw (NotExistError filename)
    | Some contents =>
        match readJson contents with
        | Throw error => Throw error
        | Return v =>
            match toCustomTipsJson v with
            | Some loaded => Return loaded
            | None => Throw (SchemaError filename)
            end
        end
    end
|}.

End Reference.

(** ** The persisted record

    The state file as a later run finds it, on the in-memory file system
    and with the JSON reader above. *)

Module Persisted.
Import Reference.

(** The record in the state file: the value [loadFromFile] gets from
    [JsonFile.parseString]; none when the file does not exist or does not
    parse. *)
Definition persistedRecord (fs : gmap string string) (path : string) : option JsonValue :=
  match readFile (FileSystem := memoryFileSystem) fs path with
  | Return contents =>
      match parseString (JsonFile := jsonFile) contents with
      | Return v => Some v
      | Throw _ => None
      end
  | Throw _ => None
  end.



End Persisted.

(** ** Scenarios

    The concrete inputs the properties are run on. *)

Module Scenarios.
Import Reference.

Definition repoStatePath : string := "common/config/rush/repo-state.json".

Definition load : gmap string string → string → option string → Completion RepoStateFile.t :=
  @RepoStateFile.loadFromFile _ memoryFileSystem jsonFile.

Definition refresh (table : gmap string string)
    : RepoStateFile.t → RepoStateFile.RushConfiguration → gmap string string
      → Completion bool * RepoStateFile.t * gmap string string :=
  @RepoStateFile.refreshState _ memoryFileSystem jsonFile (lockfiles table).

Definition refreshJournalled (table : gmap string string)
    : RepoStateFile.t → RepoStateFile.RushConfiguration
      → gmap string string * list (string * string)
      → Completion bool * RepoStateFile.t * (gmap string string * list (string * string)) :=
  @RepoStateFile.refreshState _ journalFileSystem jsonFile (lockfiles table).

Definition save : RepoStateFile.t → gmap string string
    → Completion bool * RepoStateFile.t * gmap string string :=
  @RepoStateFile._saveIfModified _ memoryFileSystem jsonFile.

(** The committed lockfile of the default variant, with hash ["abc"]. *)
Definition lockfileAbc : gmap string string :=
  {[ committedShrinkwrapFilename None := "abc" ]}.

(** A state file cut off after its opening brace. *)
Definition truncatedContent : string := "{".

Definition truncatedFile : gmap string string := {[ repoStatePath := truncatedContent ]}.

(** What the reference reader says of text that is no JSON value. *)
Definition notJson : JsError := SyntaxError "Not a JSON value".

(** The flags of [refreshState], one configuration each. *)
Definition noTracking : RepoStateFile.RushConfiguration := rushConfiguration false false "v1".
Definition lockfileOnly : RepoStateFile.RushConfiguration := rushConfiguration true false "v1".
Definition workspacesOnly : RepoStateFile.RushConfiguration := rushConfiguration false true "v1".
Definition bothTracked : RepoStateFile.RushConfiguration := rushConfiguration true true "v1".

(** The state file [_saveIfModified] writes for the given hashes. *)
Definition written (pnpmShrinkwrapHash preferredVersionsHash : option string)
    : gmap string string :=
  {[ repoStatePath :=
       @RepoStateFile.fileContent jsonFile
         {| RepoStateFile._repoStateFilePath := repoStatePath;
            RepoStateFile._variant := None;
            RepoStateFile._pnpmShrinkwrapHash := pnpmShrinkwrapHash;
            RepoStateFile._preferredVersionsHash := preferredVersionsHash;
            RepoStateFile._isValid := true;
            RepoStateFile._modified := false |} ]}.

(** A state file left by a merge whose conflict starts on the first line. *)
Definition conflictOnFirstLine : string :=
  "<<<<<<< HEAD" +:+ LF +:+ "{}" +:+ LF +:+ "=======" +:+ LF +:+ "{}" +:+ LF
  +:+ ">>>>>>> theirs" +:+ LF.

Definition conflictedFile : gmap string string := {[ repoStatePath := conflictOnFirstLine ]}.

(** The usual shape of a conflicted state file: the banner is common to
    both sides, the conflict starts on the second line. *)
Definition conflictOnSecondLine : string :=
  RepoStateFile.banner +:+ LF +:+ conflictOnFirstLine.

(** A tracker as [loadFromFile] returns it. *)
Definition tracker (pnpmShrinkwrapHash preferredVersionsHash : option string) : RepoStateFile.t :=
  {| RepoStateFile._repoStateFilePath := repoStatePath;
     RepoStateFile._variant := None;
     RepoStateFile._pnpmShrinkwrapHash := pnpmShrinkwrapHash;
     RepoStateFile._preferredVersionsHash := preferredVersionsHash;
     RepoStateFile._isValid := true;
     RepoStateFile._modified := false |}.

(** A state file whose lockfile hash is the empty string. *)
Definition emptyHashFile : gmap string string :=
  {[ repoStatePath :=
       writeJson (JObject [("pnpmShrinkwrapHash", JString EmptyString)]) (Some Lf) ]}.

(** A state file recording the lockfile hash ["abc"]. *)
Definition abcFile : gmap string string :=
  {[ repoStatePath :=
       RepoStateFile.banner +:+ LF
       +:+ writeJson (JObject [("pnpmShrinkwrapHash", JString "abc")]) (Some Lf) ]}.

Definition customTipsPath : string := "common/config/rush/custom-tips.json".

Definition inconsistentVersionsTip : CustomTipsConfiguration.ICustomTipItemJson :=
  {| CustomTipsConfiguration.tipId := "TIP_RUSH_INCONSISTENT_VERSIONS";
     CustomTipsConfiguration.message := "Run rush update." +:+ LF +:+ "Then commit." |}.

Definition oneTip : CustomTipsConfiguration.t :=
  {| CustomTipsConfiguration._tipMap :=
       {[ "TIP_RUSH_INCONSISTENT_VERSIONS" := inconsistentVersionsTip ]};
     CustomTipsConfiguration._jsonFileName := customTipsPath;
     CustomTipsConfiguration.configuration :=
       {| CustomTipsConfiguration.customTips := Some [inconsistentVersionsTip] |} |}.

(** custom-tips.json with the one tip above. *)
Definition customTipsFile : gmap string string :=
  {[ customTipsPath :=
       writeJson
         (JObject [("customTips",
                    JArray [JObject [("tipId", JString "TIP_RUSH_INCONSISTENT_VERSIONS");
                                     ("message",
                                      JString ("Run rush update." +:+ LF +:+ "Then commit."))]])])
         None ]}.

(** custom-tips.json cut off after its opening brace. *)
Definition brokenCustomTipsFile : gmap string string := {[ customTipsPath := truncatedContent ]}.

Definition unknownTip : CustomTipsConfiguration.ICustomTipItemJson :=
  {| CustomTipsConfiguration.tipId := "TIP_NO_SUCH_THING";
     CustomTipsConfiguration.message := "?" |}.




(** A loader that hands out a given list of tips, whatever the file. *)
Definition fixedTips (tips : list CustomTipsConfiguration.ICustomTipItemJson)
    : CustomTipsConfiguration.CustomTipsJsonLoader (gmap string string) := {|
  CustomTipsConfiguration.loadAndValidate _ _ :=
    Return {| CustomTipsConfiguration.customTips := Some tips |}
|}.





(** A hash with a quote, a backslash and a line break in it. *)
Definition awkwardHash : string :=
  "a" +:+ DQUOTE +:+ "b" +:+ String "092"%char "c" +:+ LF +:+ "d".

(** A state file holding the JSON value [null]. *)
Definition nullFile : gmap string string := {[ repoStatePath := "null" ]}.

(** The state file for both hashes, as the tool writes it. *)
Definition bothHashesFile : gmap string string := written (Some "abc") (Some "v1").

(** A yarn repository whose pnpm options still ask for both kinds of
    tracking. *)
Definition yarnConfiguration : RepoStateFile.RushConfiguration :=
  {| RepoStateFile.packageManager := RepoStateFile.yarn;
     RepoStateFile.pnpmOptions :=
       Some {| RepoStateFile.preventManualShrinkwrapChanges := true;
               RepoStateFile.useWorkspaces := true |};
     RepoStateFile.experimentsConfiguration :=
       {| RepoStateFile.omitImportersFromPreventManualShrinkwrapChanges := None |};
     RepoStateFile.getCommittedShrinkwrapFilename := committedShrinkwrapFilename;
     RepoStateFile.getCommonVersions := fun _ =>
       {| RepoStateFile.getPreferredVersionsHash := "v1" |} |}.

(** [refreshState] and [loadFromFile] where the state file is out of reach. *)
Definition refreshGuarded (table : gmap string string)
    : RepoStateFile.t → RepoStateFile.RushConfiguration → gmap string string
      → Completion bool * RepoStateFile.t * gmap string string :=
  @RepoStateFile.refreshState _ (guardedFileSystem {[ repoStatePath ]}) jsonFile
    (lockfiles table).

Definition loadGuarded : gmap string string → string → option string
    → Completion RepoStateFile.t :=
  @RepoStateFile.loadFromFile _ (guardedFileSystem {[ repoStatePath ]}) jsonFile.

Definition newCustomTips : gmap string string → string → Completion CustomTipsConfiguration.t :=
  @CustomTipsConfiguration.new _ memoryFileSystem customTipsLoader posixPath.

Definition showInfoTip
    : CustomTipsConfiguration.t → list CustomTipsConfiguration.TerminalWrite
      → CustomTipsConfiguration.CustomTipId → list CustomTipsConfiguration.TerminalWrite :=
  @CustomTipsConfiguration._showInfoTip wideTerminal.

End Scenarios.

(** ** Properties of RepoStateFile *)

Module RepoStateFileProperties.
Import RepoStateFile.

(** *** Strings *)

Lemma substring_length_le k s :
  String.length (substring 0 k s) = k → k ≤ String.length s.
Proof.
  revert k. induction s as [|d s IHs]; intros [|k]; simpl; try lia.
  intros [= H]. apply IHs in H. lia.
Qed.

(** [indexOf] answers at or after [from], inside the string. *)
Lemma index_bounds n s1 s2 m :
  index n s1 s2 = Some m → n ≤ m ∧ m + String.length s1 ≤ String.length s2.
Proof.
  revert n m. induction s2 as [|c s2 IH]; intros n m; cbn [index String.length].
  - destruct n; [|discriminate]. destruct s1; [|discriminate].
    intros [= <-]. simpl. lia.
  - destruct n as [|n].
    + destruct (String.prefix s1 (String c s2)) eqn:Hp.
      * intros [= <-]. split; [lia|].
        apply prefix_correct in Hp.
        assert (String.length (substring 0 (String.length s1) (String c s2))
                = String.length s1) as Hp' by (by rewrite Hp).
        apply substring_length_le in Hp'. simpl in *. lia.
      * destruct (index 0 s1 s2) eqn:Hi; [|discriminate].
        intros [= <-]. apply IH in Hi. simpl. lia.
    + destruct (index n s1 s2) eqn:Hi; [|discriminate].
      intros [= <-]. apply IH in Hi. simpl. lia.
Qed.

Lemma substring_one_get p s c :
  substring p 1 s = String c EmptyString ↔ get p s = Some c.
Proof.
  revert p. induction s as [|d s IH]; intros [|p]; simpl; try (split; discriminate).
  - destruct s; simpl; split; intros [= ->]; reflexivity.
  - apply IH.
Qed.

Lemma splitLines_cons s : ∃ line lines, splitLines s = line :: lines.
Proof.
  induction s as [|c s (line & lines & IH)]; [by eexists _, _|].
  cbn [splitLines]. rewrite IH. destruct (Ascii.eqb c "010"); by eexists _, _.
Qed.

(** A text without newline begins the content exactly when it begins the
    first line. *)
Lemma prefix_first_line m s :
  lineFree m = true →
  String.prefix m (hd EmptyString (splitLines s)) = String.prefix m s.
Proof.
  revert s. induction m as [|a m IH]; intros s Hfree.
  - by destruct s, (hd EmptyString _).
  - cbn [lineFree] in Hfree. apply andb_true_iff in Hfree as [Ha Hfree].
    destruct s as [|c r]; [done|]. cbn [splitLines].
    destruct (Ascii.eqb_spec c "010") as [->|Hc].
    + cbn. destruct (ascii_dec a "010") as [->|]; [|done]. by vm_compute in Ha.
    + destruct (splitLines_cons r) as (line & lines & Hr).
      specialize (IH r Hfree). rewrite Hr in *. cbn [hd] in *.
      cbn [String.prefix]. by destruct (ascii_dec a c).
Qed.

(** *** The scan for a conflict marker *)

(** The fuel [foundMergeConflictMarker] gives the loop is enough: every
    iteration moves to a later index of the content. *)
Lemma scanLoop_total fuel s i :
  String.length s - i < fuel → is_Some (scanLoop fuel s i).
Proof.
  revert i. induction fuel as [|fuel IH]; intros i Hlt; [lia|].
  simpl. destruct (String.eqb _ _); [eauto|].
  unfold indexOf. destruct (index (i + 1) LF s) as [next|] eqn:Hi; [|eauto].
  apply index_bounds in Hi. simpl in Hi. apply IH. lia.
Qed.

Lemma scanLoop_true fuel s i :
  scanLoop fuel s i = Some true →
  ∃ j, scanned s i j ∧ substr s (j + 1) 7 = mergeConflictMarker.
Proof.
  revert i. induction fuel as [|fuel IH]; intros i; simpl; [discriminate|].
  destruct (String.eqb _ _) eqn:He.
  - intros _. exists i. apply String.eqb_eq in He. unfold scanned. auto.
  - unfold indexOf. destruct (index (i + 1) LF s) as [next|] eqn:Hi; [|discriminate].
    intros H. apply IH in H as (j & [Hle Hj] & Hm).
    pose proof (index_bounds _ _ _ _ Hi) as [Hn _].
    apply index_correct1 in Hi. simpl in Hi. apply substring_one_get in Hi.
    exists j. split; [|done]. split; [lia|]. right. destruct Hj as [->|]; done.
Qed.

Lemma scanLoop_false fuel s i :
  scanLoop fuel s i = Some false →
  ∀ j, scanned s i j → substr s (j + 1) 7 ≠ mergeConflictMarker.
Proof.
  revert i. induction fuel as [|fuel IH]; intros i; simpl; [discriminate|].
  destruct (String.eqb _ _) eqn:He; [discriminate|].
  apply String.eqb_neq in He.
  unfold indexOf. destruct (index (i + 1) LF s) as [next|] eqn:Hi.
  - intros H j [Hle Hj]. destruct Hj as [->|Hj]; [done|].
    destruct (decide (j = i)) as [->|Hne]; [done|].
    assert (next ≤ j) as Hnj.
    { destruct (decide (next ≤ j)); [done|]. exfalso.
      eapply (index_correct2 _ _ _ _ Hi j); [lia|lia|].
      simpl. by apply substring_one_get. }
    apply (IH _ H). split; [done|]. by right.
  - intros _ j [Hle Hj]. destruct Hj as [->|Hj]; [done|].
    destruct (decide (j = i)) as [->|Hne]; [done|]. exfalso.
    eapply (index_correct3 _ j _ _ Hi); [done|lia|].
    simpl. by apply substring_one_get.
Qed.

(** The loop's answer by positions: the marker is found right after
    index 0 or right after a newline. *)
Lemma foundMergeConflictMarker_spec s :
  foundMergeConflictMarker s = true ↔
  ∃ j, (j = 0 ∨ get j s = Some "010"%char) ∧ substr s (j + 1) 7 = mergeConflictMarker.
Proof.
  unfold foundMergeConflictMarker.
  destruct (scanLoop_total (S (String.length s)) s 0) as [b Hb]; [lia|].
  rewrite Hb. destruct b.
  - split; [|done]. intros _. apply scanLoop_true in Hb as (j & [_ Hj] & Hm). eauto.
  - split; [done|]. intros (j & Hj & Hm). exfalso.
    eapply scanLoop_false; [exact Hb| |exact Hm]. split; [lia|done].
Qed.

Lemma beginsWithMarker_substring s :
  beginsWithMarker s = true ↔ substring 0 7 s = mergeConflictMarker.
Proof.
  unfold beginsWithMarker. split.
  - intros H. by apply prefix_correct in H.
  - intros H. by apply prefix_correct.
Qed.

Lemma later_lines_spec s :
  existsb beginsWithMarker (tail (splitLines s)) = true ↔
  ∃ j, get j s = Some "010"%char ∧ substr s (j + 1) 7 = mergeConflictMarker.
Proof.
  induction s as [|c r IH].
  - split; [done|]. by intros (j & Hj & _).
  - cbn [splitLines]. destruct (Ascii.eqb_spec c "010") as [->|Hc].
    + cbn [tail]. destruct (splitLines_cons r) as (line & lines & Hr).
      pose proof (prefix_first_line mergeConflictMarker r eq_refl) as Hfirst.
      rewrite Hr in *. cbn [hd tail existsb] in *.
      fold (beginsWithMarker line) in Hfirst. fold (beginsWithMarker r) in Hfirst.
      rewrite Hfirst, orb_true_iff, IH, beginsWithMarker_substring.
      split.
      * intros [Hhere|(j & Hj & Hm)]; [by exists 0|by exists (S j)].
      * intros ([|j] & Hj & Hm); [by left|right; by exists j].
    + destruct (splitLines_cons r) as (line & lines & Hr).
      rewrite Hr in *. cbn [tail] in *. rewrite IH. split.
      * intros (j & Hj & Hm). by exists (S j).
      * intros ([|j] & Hj & Hm); [|by exists j].
        cbn in Hj. injection Hj as ->. by destruct Hc.
Qed.

(** The loop's answer by lines: the marker begins a line after the first,
    or sits at the second character of the content.  The first line itself
    is looked at one character too far to the right. *)
Lemma foundMergeConflictMarker_lines s :
  foundMergeConflictMarker s = true ↔
  substr s 1 7 = mergeConflictMarker
  ∨ existsb beginsWithMarker (tail (splitLines s)) = true.
Proof.
  rewrite foundMergeConflictMarker_spec, later_lines_spec. split.
  - intros (j & [->|Hj] & Hm); [by left|right; by exists j].
  - intros [Hm|(j & Hj & Hm)]; [by exists 0; auto|exists j; auto].
Qed.

(** Against the design document's test: a conflict line the loop does not
    find is the first line, and only the first line. *)
Lemma missed_marker_is_on_first_line s :
  hasConflictLine s = true →
  foundMergeConflictMarker s = false →
  beginsWithMarker s = true
  ∧ existsb beginsWithMarker (tail (splitLines s)) = false.
Proof.
  intros Hline Hmissed.
  assert (existsb beginsWithMarker (tail (splitLines s)) = false) as Hlater.
  { destruct (existsb _ _) eqn:Hex; [|done].
    rewrite <- Hmissed. symmetry. apply foundMergeConflictMarker_lines. by right. }
  split; [|done].
  unfold hasConflictLine in Hline.
  pose proof (prefix_first_line mergeConflictMarker s eq_refl) as Hfirst.
  destruct (splitLines_cons s) as (line & lines & Hs).
  rewrite Hs in *. cbn [existsb hd tail] in *.
  rewrite Hlater, orb_false_r in Hline.
  unfold beginsWithMarker in *. by rewrite <- Hfirst.
Qed.

(** And what the loop finds where no line begins with the marker is the
    marker at the second character. *)
Lemma found_without_conflict_line s :
  hasConflictLine s = false →
  foundMergeConflictMarker s = true →
  substr s 1 7 = mergeConflictMarker.
Proof.
  intros Hnone Hfound.
  apply foundMergeConflictMarker_lines in Hfound as [Hsecond|Hlater]; [done|].
  unfold hasConflictLine in Hnone.
  destruct (splitLines_cons s) as (line & lines & Hs).
  rewrite Hs in *. cbn [existsb tail] in *.
  rewrite Hlater, orb_true_r in Hnone. discriminate.
Qed.

(** *** loadFromFile *)

Section Load.
Context {FS : Type} {fileSystem : FileSystem FS} {jsonFile : JsonFile}.

Lemma truthyString_nonempty s : s ≠ EmptyString → truthyString (Some s) = true.
Proof. intros Hs. simpl. destruct (String.eqb_spec s EmptyString); done. Qed.

(** On a file that exists and is not empty, [loadFromFile] is the two
    [try] blocks, the validation and the constructor. *)
Lemma loadFromFile_unfold fs jsonFilename variant contents :
  readFile fs jsonFilename = Return contents →
  contents ≠ EmptyString →
  loadFromFile fs jsonFilename variant =
    (let '(foundMarker, repoStateJson) := parseOrFindMarker contents in
     _ ← validateIfPresent repoStateJson jsonFilename;;;
     Return (new repoStateJson (negb foundMarker) jsonFilename variant)).
Proof.
  intros Hread Hne. unfold loadFromFile, readFileIfExists. rewrite Hread.
  cbn [bind]. by rewrite truthyString_nonempty.
Qed.

(** An absent file, or an empty one, gives an empty valid tracker. *)
Lemma loadFromFile_absent fs jsonFilename variant error :
  readFile fs jsonFilename = Throw error →
  isNotExistError error = true →
  loadFromFile fs jsonFilename variant = Return (new None true jsonFilename variant).
Proof.
  intros Hread Hnot. unfold loadFromFile, readFileIfExists. by rewrite Hread, Hnot.
Qed.

(** A failure to read that is not "no such file" is thrown on. *)
Lemma loadFromFile_read_failure fs jsonFilename variant error :
  readFile fs jsonFilename = Throw error →
  isNotExistError error = false →
  loadFromFile fs jsonFilename variant = Throw error.
Proof.
  intros Hread Hnot. unfold loadFromFile, readFileIfExists. by rewrite Hread, Hnot.
Qed.

(** C1.  The design document asks for a fatal error when the state file does
    not parse and holds no conflict line.  The [catch] block of
    [loadFromFile] never throws again: on such a file [loadFromFile] returns
    a tracker, and when the scan finds nothing that tracker is the empty one
    with [isValid = true], as for a file that does not exist. *)
Theorem loadFromFile_swallows_parse_failure fs jsonFilename variant contents error :
  readFile fs jsonFilename = Return contents →
  contents ≠ EmptyString →
  parseString contents = Throw error →
  hasConflictLine contents = false →
  ∃ this,
    loadFromFile fs jsonFilename variant = Return this
    ∧ (foundMergeConflictMarker contents = false →
       this = new None true jsonFilename variant
       ∧ isValid this = true
       ∧ pnpmShrinkwrapHash this = None
       ∧ preferredVersionsHash this = None).
Proof.
  intros Hread Hne Hparse _.
  rewrite (loadFromFile_unfold _ _ _ _ Hread Hne).
  unfold parseOrFindMarker. rewrite Hparse.
  destruct (foundMergeConflictMarker contents).
  - eexists. split; [reflexivity|]. discriminate.
  - eexists. split; [reflexivity|]. done.
Qed.

(** C2.  The design document asks that a conflict marker at the head of any
    line, the first included, makes [loadFromFile] return an invalid tracker
    holding ["INVALID"] twice.  On the state file of [conflictOnFirstLine],
    whose only marker heads the first line, the loop looks at the second
    character onwards and finds nothing: the tracker returned is valid and
    empty. *)
Theorem loadFromFile_misses_marker_on_first_line fs jsonFilename variant error :
  readFile fs jsonFilename = Return Scenarios.conflictOnFirstLine →
  parseString Scenarios.conflictOnFirstLine = Throw error →
  hasConflictLine Scenarios.conflictOnFirstLine = true
  ∧ ∃ this,
      loadFromFile fs jsonFilename variant = Return this
      ∧ isValid this = true
      ∧ pnpmShrinkwrapHash this = None
      ∧ preferredVersionsHash this = None.
Proof.
  intros Hread Hparse. split; [reflexivity|].
  rewrite (loadFromFile_unfold _ _ _ _ Hread ltac:(done)).
  unfold parseOrFindMarker. rewrite Hparse.
  replace (foundMergeConflictMarker Scenarios.conflictOnFirstLine) with false
    by (by vm_compute).
  eexists. split; [reflexivity|]. done.
Qed.

(** Where the scan does find the marker, the recovery is the one the
    design document describes. *)
Lemma loadFromFile_recovers_found_marker fs jsonFilename variant contents error :
  readFile fs jsonFilename = Return contents →
  parseString contents = Throw error →
  foundMergeConflictMarker contents = true →
  ∃ this,
    loadFromFile fs jsonFilename variant = Return this
    ∧ isValid this = false
    ∧ pnpmShrinkwrapHash this = Some "INVALID"
    ∧ preferredVersionsHash this = Some "INVALID".
Proof.
  intros Hread Hparse Hscan.
  assert (contents ≠ EmptyString) as Hne by (intros ->; discriminate).
  rewrite (loadFromFile_unfold _ _ _ _ Hread Hne).
  unfold parseOrFindMarker. rewrite Hparse, Hscan.
  eexists. split; [reflexivity|]. done.
Qed.

(** In particular for a marker at the head of any line after the first. *)
Lemma loadFromFile_recovers_later_line fs jsonFilename variant contents error :
  readFile fs jsonFilename = Return contents →
  parseString contents = Throw error →
  existsb beginsWithMarker (tail (splitLines contents)) = true →
  ∃ this,
    loadFromFile fs jsonFilename variant = Return this
    ∧ isValid this = false
    ∧ pnpmShrinkwrapHash this = Some "INVALID"
    ∧ preferredVersionsHash this = Some "INVALID".
Proof.
  intros Hread Hparse Hline.
  apply (loadFromFile_recovers_found_marker _ _ _ _ _ Hread Hparse).
  apply foundMergeConflictMarker_lines. by right.
Qed.

End Load.

(** *** refreshState *)

Section Refresh.
Context {FS : Type} {fileSystem : FileSystem FS} {jsonFile : JsonFile}
  {lockfileLoader : PnpmShrinkwrapFileLoader}.

Lemma strictNotEqual_refl a : strictNotEqual a a = false.
Proof. destruct a as [s|]; simpl; [|done]. by rewrite String.eqb_refl. Qed.

Lemma strictNotEqual_false a b : strictNotEqual a b = false → a = b.
Proof.
  destruct a as [x|], b as [y|]; simpl; try done.
  destruct (String.eqb_spec x y); [by subst|done].
Qed.

Lemma strictNotEqual_None a : strictNotEqual a None = false → a = None.
Proof. apply strictNotEqual_false. Qed.


Lemma refreshShrinkwrapHash_fields this cfg :
  _repoStateFilePath (refreshShrinkwrapHash this cfg) = _repoStateFilePath this
  ∧ _variant (refreshShrinkwrapHash this cfg) = _variant this
  ∧ _preferredVersionsHash (refreshShrinkwrapHash this cfg) = _preferredVersionsHash this
  ∧ _isValid (refreshShrinkwrapHash this cfg) = _isValid this.
Proof. unfold refreshShrinkwrapHash. repeat case_match; done. Qed.

Lemma refreshPreferredVersionsHash_fields this cfg :
  _repoStateFilePath (refreshPreferredVersionsHash this cfg) = _repoStateFilePath this
  ∧ _variant (refreshPreferredVersionsHash this cfg) = _variant this
  ∧ _pnpmShrinkwrapHash (refreshPreferredVersionsHash this cfg) = _pnpmShrinkwrapHash this
  ∧ _isValid (refreshPreferredVersionsHash this cfg) = _isValid this.
Proof. unfold refreshPreferredVersionsHash. repeat case_match; done. Qed.

(** What the lockfile half leaves in [_pnpmShrinkwrapHash]. *)
Lemma refreshShrinkwrapHash_hash this cfg :
  _pnpmShrinkwrapHash (refreshShrinkwrapHash this cfg) =
    if preventShrinkwrapChanges cfg then
      match PnpmShrinkwrapFile_loadFromFile
              (getCommittedShrinkwrapFilename cfg (_variant this)) (pnpmOptions cfg) with
      | Some lockfile =>
          Some (getShrinkwrapHash lockfile
                  (omitImportersFromPreventManualShrinkwrapChanges
                     (experimentsConfiguration cfg)))
      | None => _pnpmShrinkwrapHash this
      end
    else None.
Proof.
  unfold refreshShrinkwrapHash. repeat case_match; try done.
  - by apply strictNotEqual_false.
  - by apply strictNotEqual_None.
Qed.

(** What the workspace half leaves in [_preferredVersionsHash]. *)
Lemma refreshPreferredVersionsHash_hash this cfg :
  _preferredVersionsHash (refreshPreferredVersionsHash this cfg) =
    if usesWorkspaces cfg
    then Some (getPreferredVersionsHash (getCommonVersions cfg (_variant this)))
    else None.
Proof.
  unfold refreshPreferredVersionsHash. repeat case_match; try done.
  - by apply strictNotEqual_false.
  - by apply strictNotEqual_None.
Qed.

Lemma refreshState_unfold this cfg fs :
  refreshState this cfg fs = _saveIfModified (refreshFields this cfg) fs.
Proof. reflexivity. Qed.

Lemma saveIfModified_hashes this fs :
  _pnpmShrinkwrapHash (_saveIfModified this fs).1.2 = _pnpmShrinkwrapHash this
  ∧ _preferredVersionsHash (_saveIfModified this fs).1.2 = _preferredVersionsHash this
  ∧ _isValid (_saveIfModified this fs).1.2 = _isValid this
  ∧ _variant (_saveIfModified this fs).1.2 = _variant this
  ∧ _repoStateFilePath (_saveIfModified this fs).1.2 = _repoStateFilePath this.
Proof. unfold _saveIfModified. repeat case_match; done. Qed.

Lemma serializedJson_ext this this' :
  _pnpmShrinkwrapHash this' = _pnpmShrinkwrapHash this →
  _preferredVersionsHash this' = _preferredVersionsHash this →
  serializedJson this' = serializedJson this.
Proof. unfold serializedJson. by intros -> ->. Qed.

Lemma fileContent_ext this this' :
  _pnpmShrinkwrapHash this' = _pnpmShrinkwrapHash this →
  _preferredVersionsHash this' = _preferredVersionsHash this →
  fileContent this' = fileContent this.
Proof.
  intros H1 H2. unfold fileContent, _serialize. by rewrite (serializedJson_ext _ _ H1 H2).
Qed.

Lemma serializedJson_pnpmShrinkwrapHash this :
  getProperty (serializedJson this) "pnpmShrinkwrapHash" =
    match _pnpmShrinkwrapHash this with
    | Some hash => if String.eqb hash EmptyString then None else Some (JString hash)
    | None => None
    end.
Proof.
  unfold serializedJson, setIfTruthy, truthyString.
  destruct (_pnpmShrinkwrapHash this) as [h|], (_preferredVersionsHash this) as [h'|];
    repeat case_match; done.
Qed.

Lemma serializedJson_preferredVersionsHash this :
  getProperty (serializedJson this) "preferredVersionsHash" =
    match _preferredVersionsHash this with
    | Some hash => if String.eqb hash EmptyString then None else Some (JString hash)
    | None => None
    end.
Proof.
  unfold serializedJson, setIfTruthy, truthyString.
  destruct (_pnpmShrinkwrapHash this) as [h|], (_preferredVersionsHash this) as [h'|];
    repeat case_match; done.
Qed.

(** C6.  After every call of [refreshState] the tracker's [isValid] is
    [true]: whatever the flags, whether or not anything changed, whatever
    [isValid] was before, and also when the write that follows fails. *)
Theorem refreshState_isValid this cfg fs :
  isValid (refreshState this cfg fs).1.2 = true.
Proof.
  rewrite refreshState_unfold. unfold isValid.
  by destruct (saveIfModified_hashes (refreshFields this cfg) fs) as (_ & _ & -> & _).
Qed.


Lemma refreshFields_hashes this cfg :
  _pnpmShrinkwrapHash (refreshFields this cfg) = _pnpmShrinkwrapHash (refreshShrinkwrapHash this cfg)
  ∧ _preferredVersionsHash (refreshFields this cfg)
    = _preferredVersionsHash
        (refreshPreferredVersionsHash (refreshShrinkwrapHash this cfg) cfg)
  ∧ _variant (refreshFields this cfg) = _variant this
  ∧ _repoStateFilePath (refreshFields this cfg) = _repoStateFilePath this
  ∧ _isValid (refreshFields this cfg) = true.
Proof.
  unfold refreshFields. cbn [set_isValid _pnpmShrinkwrapHash _preferredVersionsHash
                         _variant _repoStateFilePath _isValid].
  destruct (refreshPreferredVersionsHash_fields (refreshShrinkwrapHash this cfg) cfg)
    as (-> & -> & -> & _).
  by destruct (refreshShrinkwrapHash_fields this cfg) as (-> & -> & _).
Qed.

Lemma saveIfModified_written this fs result this' fs' :
  _saveIfModified this fs = (result, this', fs') →
  (result = Return true →
     writeFile fs (_repoStateFilePath this) (fileContent this) = Return fs')
  ∧ (result = Return false → fs' = fs)
  ∧ (∀ error, result = Throw error →
       writeFile fs (_repoStateFilePath this) (fileContent this) = Throw error
       ∧ _modified this' = true).
Proof.
  unfold _saveIfModified.
  destruct (_modified this) eqn:Hm.
  - destruct (writeFile _ _ _) eqn:Hw; intros [= <- <- <-];
      (split; [|split]); try done.
    intros error [= <-]. done.
  - intros [= <- <- <-]. done.
Qed.

(** The tracker after [refreshState], and the record it serializes, on
    every file system: the field of a disabled flag is absent, even if a
    value was stored before; the preferred-versions field of an enabled
    workspace flag holds the current hash; the lockfile field of an enabled
    lockfile flag holds the current hash when the committed lockfile is
    found, and is left as it was stored when it is not.  A present hash
    appears in the serialized record when it is not the empty string.  The
    record is written exactly when [refreshState] returns [true]. *)
Theorem refreshState_field_presence this cfg fs result this' fs' :
  refreshState this cfg fs = (result, this', fs') →
  (preventShrinkwrapChanges cfg = false →
     pnpmShrinkwrapHash this' = None
     ∧ getProperty (serializedJson this') "pnpmShrinkwrapHash" = None)
  ∧ (usesWorkspaces cfg = false →
     preferredVersionsHash this' = None
     ∧ getProperty (serializedJson this') "preferredVersionsHash" = None)
  ∧ (usesWorkspaces cfg = true →
     ∀ hash, getPreferredVersionsHash (getCommonVersions cfg (_variant this)) = hash →
     preferredVersionsHash this' = Some hash
     ∧ (hash ≠ EmptyString →
        getProperty (serializedJson this') "preferredVersionsHash" = Some (JString hash)))
  ∧ (preventShrinkwrapChanges cfg = true →
     ∀ lockfile hash,
       PnpmShrinkwrapFile_loadFromFile
         (getCommittedShrinkwrapFilename cfg (_variant this)) (pnpmOptions cfg)
       = Some lockfile →
       getShrinkwrapHash lockfile
         (omitImportersFromPreventManualShrinkwrapChanges (experimentsConfiguration cfg))
       = hash →
       pnpmShrinkwrapHash this' = Some hash
       ∧ (hash ≠ EmptyString →
          getProperty (serializedJson this') "pnpmShrinkwrapHash" = Some (JString hash)))
  ∧ (preventShrinkwrapChanges cfg = true →
     PnpmShrinkwrapFile_loadFromFile
       (getCommittedShrinkwrapFilename cfg (_variant this)) (pnpmOptions cfg) = None →
     pnpmShrinkwrapHash this' = pnpmShrinkwrapHash this)
  ∧ (result = Return true →
     writeFile fs (filePath this)
       (banner +:+ LF +:+ stringify (serializedJson this') (Some Lf)) = Return fs')
  ∧ (result = Return false → fs' = fs).
Proof.
  intros Hrefresh. rewrite refreshState_unfold in Hrefresh.
  pose proof (saveIfModified_hashes (refreshFields this cfg) fs) as (Hp & Hv & _).
  rewrite Hrefresh in Hp, Hv. cbn [fst snd] in Hp, Hv.
  destruct (refreshFields_hashes this cfg) as (Hp' & Hv' & _ & Hpath & _).
  rewrite Hp', refreshShrinkwrapHash_hash in Hp.
  rewrite Hv', refreshPreferredVersionsHash_hash in Hv.
  destruct (refreshShrinkwrapHash_fields this cfg) as (_ & Hvariant & _).
  rewrite Hvariant in Hv.
  unfold pnpmShrinkwrapHash, preferredVersionsHash, filePath.
  rewrite serializedJson_pnpmShrinkwrapHash, serializedJson_preferredVersionsHash, Hp, Hv.
  apply saveIfModified_written in Hrefresh as (Hwrite & Hnone & _).
  split_and!.
  - by intros ->.
  - by intros ->.
  - intros -> hash <-. split; [done|]. intros Hne. by destruct (String.eqb_spec
      (getPreferredVersionsHash (getCommonVersions cfg (_variant this))) EmptyString).
  - intros -> lockfile hash -> <-. split; [done|]. intros Hne. by destruct (String.eqb_spec
      (getShrinkwrapHash lockfile
         (omitImportersFromPreventManualShrinkwrapChanges (experimentsConfiguration cfg)))
      EmptyString).
  - by intros -> ->.
  - intros Hr. rewrite <- Hpath, <- (Hwrite Hr). f_equal.
    unfold fileContent, _serialize. do 3 f_equal.
    apply serializedJson_ext.
    + by rewrite Hp', refreshShrinkwrapHash_hash, Hp.
    + by rewrite Hv', refreshPreferredVersionsHash_hash, Hvariant, Hv.
  - done.
Qed.


(** C4, amended.  With lockfile tracking enabled and no committed lockfile
    found, the lockfile half of [refreshState] changes nothing: the stored
    hash is kept as it is (not cleared) and the tracker is not marked
    modified on its account.  No error arises from it: [refreshState] throws
    only if a write caused by another change fails. *)
Theorem refreshState_keeps_hash_without_lockfile this cfg fs result this' fs' :
  preventShrinkwrapChanges cfg = true →
  PnpmShrinkwrapFile_loadFromFile
    (getCommittedShrinkwrapFilename cfg (_variant this)) (pnpmOptions cfg) = None →
  refreshState this cfg fs = (result, this', fs') →
  refreshShrinkwrapHash this cfg = this
  ∧ pnpmShrinkwrapHash this' = pnpmShrinkwrapHash this
  ∧ (∀ error, result = Throw error →
       writeFile fs (filePath this) (fileContent this') = Throw error).
Proof.
  intros Hon Hmissing Hrefresh.
  assert (refreshShrinkwrapHash this cfg = this) as Hsame.
  { unfold refreshShrinkwrapHash. by rewrite Hon, Hmissing. }
  split; [done|].
  rewrite refreshState_unfold in Hrefresh.
  pose proof (saveIfModified_hashes (refreshFields this cfg) fs) as (Hp & Hv & _).
  rewrite Hrefresh in Hp, Hv. cbn [fst snd] in Hp, Hv.
  destruct (refreshFields_hashes this cfg) as (Hp' & _ & _ & Hpath & _).
  apply saveIfModified_written in Hrefresh as (_ & _ & Hthrow).
  unfold pnpmShrinkwrapHash, filePath. split.
  - by rewrite Hp, Hp', Hsame.
  - intros error Herr. destruct (Hthrow error Herr) as [Hw _].
    rewrite <- Hpath, <- Hw. f_equal. by apply fileContent_ext.
Qed.

Lemma refreshFields_idempotent this cfg :
  refreshFields (set_modified (refreshFields this cfg) false) cfg
  = set_modified (refreshFields this cfg) false.
Proof.
  destruct (refreshFields_hashes this cfg) as (Hp & Hv & Hvar & Hpath & Hvalid).
  rewrite refreshShrinkwrapHash_hash in Hp.
  rewrite refreshPreferredVersionsHash_hash in Hv.
  destruct (refreshShrinkwrapHash_fields this cfg) as (_ & Hvar' & _).
  rewrite Hvar' in Hv.
  destruct (refreshFields this cfg) as [path variant pnpmHash preferredHash valid modified].
  cbn in Hp, Hv, Hvar, Hpath, Hvalid. subst variant valid.
  unfold refreshFields, refreshPreferredVersionsHash, refreshShrinkwrapHash, set_modified.
  cbn [_repoStateFilePath _variant _pnpmShrinkwrapHash _preferredVersionsHash
       _isValid _modified].
  assert (strictNotEqual pnpmHash
            (if preventShrinkwrapChanges cfg then
               match PnpmShrinkwrapFile_loadFromFile
                       (getCommittedShrinkwrapFilename cfg (_variant this))
                       (pnpmOptions cfg) with
               | Some lockfile =>
                   Some (getShrinkwrapHash lockfile
                           (omitImportersFromPreventManualShrinkwrapChanges
                              (experimentsConfiguration cfg)))
               | None => pnpmHash
               end
             else None) = false) as Hsame.
  { destruct (preventShrinkwrapChanges cfg); [|by rewrite Hp].
    destruct (PnpmShrinkwrapFile_loadFromFile _ _); rewrite ?Hp; apply strictNotEqual_refl. }
  destruct (preventShrinkwrapChanges cfg).
  - destruct (PnpmShrinkwrapFile_loadFromFile _ _) as [lockfile|].
    + rewrite Hsame. cbn. rewrite Hv.
      destruct (usesWorkspaces cfg); by rewrite strictNotEqual_refl.
    + cbn. rewrite Hv. destruct (usesWorkspaces cfg); by rewrite strictNotEqual_refl.
  - rewrite Hsame. cbn. rewrite Hv.
    destruct (usesWorkspaces cfg); by rewrite strictNotEqual_refl.
Qed.

(** C5.  Two calls of [refreshState] in a row on unchanged inputs: the
    first returns whether it wrote (the file system afterwards is the result
    of that one write, or is untouched); the second returns [false] and
    leaves the tracker and the file system as they are. *)
Theorem refreshState_idempotent this cfg fs didWrite this1 fs1 :
  refreshState this cfg fs = (Return didWrite, this1, fs1) →
  refreshState this1 cfg fs1 = (Return false, this1, fs1)
  ∧ (if didWrite
     then writeFile fs (filePath this) (fileContent this1) = Return fs1
     else fs1 = fs).
Proof.
  rewrite !refreshState_unfold. intros Hfirst.
  assert (this1 = set_modified (refreshFields this cfg) false) as ->.
  { revert Hfirst. unfold _saveIfModified.
    destruct (_modified (refreshFields this cfg)) eqn:Hm.
    - destruct (writeFile _ _ _); [|discriminate]. by intros [= _ <- _].
    - intros [= _ <- _]. by destruct (refreshFields this cfg); simplify_eq/=. }
  split.
  - by rewrite refreshFields_idempotent.
  - destruct (refreshFields_hashes this cfg) as (_ & _ & _ & Hpath & _).
    apply saveIfModified_written in Hfirst as (Hwrite & Hnone & _).
    destruct didWrite; [|by apply Hnone].
    unfold filePath. rewrite <- Hpath. by rewrite <- (Hwrite eq_refl).
Qed.


(** C8.  Lockfile tracking enabled, stored hash ["abc"], computed hash
    ["abc"], workspace tracking disabled, a preferred-versions hash stored:
    [refreshState] returns [true], and the record it writes holds
    [pnpmShrinkwrapHash: "abc"] and no [preferredVersionsHash]. *)
Theorem refreshState_concrete_scenario this cfg fs fs' lockfile preferred :
  preventShrinkwrapChanges cfg = true →
  PnpmShrinkwrapFile_loadFromFile
    (getCommittedShrinkwrapFilename cfg (_variant this)) (pnpmOptions cfg) = Some lockfile →
  getShrinkwrapHash lockfile
    (omitImportersFromPreventManualShrinkwrapChanges (experimentsConfiguration cfg)) = "abc" →
  pnpmShrinkwrapHash this = Some "abc" →
  usesWorkspaces cfg = false →
  preferredVersionsHash this = Some preferred →
  writeFile fs (filePath this)
    (banner +:+ LF
     +:+ stringify (JObject [("pnpmShrinkwrapHash", JString "abc")]) (Some Lf)) = Return fs' →
  ∃ this', refreshState this cfg fs = (Return true, this', fs')
    ∧ pnpmShrinkwrapHash this' = Some "abc"
    ∧ preferredVersionsHash this' = None
    ∧ serializedJson this' = JObject [("pnpmShrinkwrapHash", JString "abc")].
Proof.
  unfold pnpmShrinkwrapHash, preferredVersionsHash, filePath.
  intros Hon Hfound Hhash Hstored Hoff Hpreferred Hwrite.
  destruct this as [path variant pnpmHash preferredHash valid modified].
  cbn in *. subst pnpmHash preferredHash.
  assert (refreshFields
            {| _repoStateFilePath := path; _variant := variant;
               _pnpmShrinkwrapHash := Some "abc"; _preferredVersionsHash := Some preferred;
               _isValid := valid; _modified := modified |} cfg
          = {| _repoStateFilePath := path; _variant := variant;
               _pnpmShrinkwrapHash := Some "abc"; _preferredVersionsHash := None;
               _isValid := true; _modified := true |}) as Hfields.
  { unfold refreshFields, refreshShrinkwrapHash, refreshPreferredVersionsHash.
    cbn. rewrite Hon, Hfound, Hhash, Hoff. reflexivity. }
  unfold refreshState, _saveIfModified. rewrite Hfields.
  cbn [_modified _repoStateFilePath].
  replace (fileContent _) with
    (banner +:+ LF
     +:+ stringify (JObject [("pnpmShrinkwrapHash", JString "abc")]) (Some Lf))
    by reflexivity.
  rewrite Hwrite. eexists. split; [reflexivity|]. done.
Qed.

Lemma fileContent_nonempty this : fileContent this ≠ EmptyString.
Proof. unfold fileContent, banner. cbn. discriminate. Qed.

Lemma serializedJson_valid this : _jsonSchema (serializedJson this) = true.
Proof.
  unfold serializedJson, setIfTruthy.
  destruct (_pnpmShrinkwrapHash this), (_preferredVersionsHash this);
    repeat case_match; done.
Qed.

(** An empty-string hash and an absent one are written alike, whatever
    the JSON writer. *)
Lemma fileContent_empty_hash this :
  fileContent (set_pnpmShrinkwrapHash this (Some EmptyString))
  = fileContent (set_pnpmShrinkwrapHash this None).
Proof. reflexivity. Qed.

(** Saving and loading on any file system and with any JSON library, for
    a tracker none of whose hashes is the empty string: when the file
    system gives back what [_saveIfModified] wrote and the JSON reader
    gives back what the JSON writer was given, [loadFromFile] on the
    written file returns a valid tracker with the same two hashes, hence
    the same serialized record. *)
Theorem save_then_load_round_trip this fs fs' variant :
  pnpmShrinkwrapHash this ≠ Some EmptyString →
  preferredVersionsHash this ≠ Some EmptyString →
  _modified this = true →
  writeFile fs (filePath this) (fileContent this) = Return fs' →
  readFile fs' (filePath this) = Return (fileContent this) →
  parseString (fileContent this) = Return (serializedJson this) →
  ∃ saved loaded,
    _saveIfModified this fs = (Return true, saved, fs')
    ∧ loadFromFile fs' (filePath this) variant = Return loaded
    ∧ pnpmShrinkwrapHash loaded = pnpmShrinkwrapHash this
    ∧ preferredVersionsHash loaded = preferredVersionsHash this
    ∧ isValid loaded = true
    ∧ serializedJson loaded = serializedJson this.
Proof.
  unfold pnpmShrinkwrapHash, preferredVersionsHash, filePath.
  intros Hp Hv Hmod Hwrite Hread Hparse.
  unfold _saveIfModified. rewrite Hmod, Hwrite.
  rewrite (loadFromFile_unfold _ _ _ _ Hread (fileContent_nonempty this)).
  unfold parseOrFindMarker. rewrite Hparse.
  unfold validateIfPresent, validateObject. cbn [truthy serializedJson].
  fold (serializedJson this). rewrite serializedJson_valid. cbn [bind negb].
  do 2 eexists. split; [reflexivity|]. split; [reflexivity|].
  assert (_pnpmShrinkwrapHash
            (new (Some (serializedJson this)) true (_repoStateFilePath this) variant)
          = _pnpmShrinkwrapHash this) as Hp'.
  { unfold new, getStringProperty. cbn [truthy serializedJson _pnpmShrinkwrapHash].
    fold (serializedJson this). rewrite serializedJson_pnpmShrinkwrapHash.
    destruct (_pnpmShrinkwrapHash this) as [h|]; [|done].
    destruct (String.eqb_spec h EmptyString); [by subst|done]. }
  assert (_preferredVersionsHash
            (new (Some (serializedJson this)) true (_repoStateFilePath this) variant)
          = _preferredVersionsHash this) as Hv'.
  { unfold new, getStringProperty. cbn [truthy serializedJson _preferredVersionsHash].
    fold (serializedJson this). rewrite serializedJson_preferredVersionsHash.
    destruct (_preferredVersionsHash this) as [h|]; [|done].
    destruct (String.eqb_spec h EmptyString); [by subst|done]. }
  split_and!; try done. by apply serializedJson_ext.
Qed.

(** With nothing stored and both flags off there is nothing to persist. *)
Lemma refreshState_nothing_to_persist filePath variant cfg fs :
  preventShrinkwrapChanges cfg = false →
  usesWorkspaces cfg = false →
  refreshState (new None true filePath variant) cfg fs
  = (Return false, new None true filePath variant, fs).
Proof.
  intros Hlock Hwork.
  unfold refreshState, refreshFields, refreshShrinkwrapHash, refreshPreferredVersionsHash.
  by rewrite Hlock, Hwork.
Qed.

End Refresh.

(** *** The properties on the reference collaborators *)

Section OnReference.
Import Reference Scenarios.

Lemma loadFromFile_swallows_parse_failure_witness :
  readFile (FileSystem := memoryFileSystem) truncatedFile repoStatePath
    = Return truncatedContent
  ∧ truncatedContent ≠ EmptyString
  ∧ parseString (JsonFile := jsonFile) truncatedContent = Throw notJson
  ∧ hasConflictLine truncatedContent = false
  ∧ foundMergeConflictMarker truncatedContent = false
  ∧ ∃ this,
      load truncatedFile repoStatePath None = Return this
      ∧ (foundMergeConflictMarker truncatedContent = false →
         this = new None true repoStatePath None
         ∧ isValid this = true
         ∧ pnpmShrinkwrapHash this = None
         ∧ preferredVersionsHash this = None).
Proof.
  split_and!; [reflexivity|discriminate|reflexivity|reflexivity|reflexivity|].
  apply (loadFromFile_swallows_parse_failure (fileSystem := memoryFileSystem)
           (jsonFile := jsonFile) truncatedFile repoStatePath None truncatedContent notJson);
    [reflexivity|discriminate|reflexivity|reflexivity].
Defined.

Lemma loadFromFile_misses_marker_on_first_line_witness :
  readFile (FileSystem := memoryFileSystem) conflictedFile repoStatePath
    = Return conflictOnFirstLine
  ∧ parseString (JsonFile := jsonFile) conflictOnFirstLine = Throw notJson
  ∧ hasConflictLine conflictOnFirstLine = true
  ∧ ∃ this,
      load conflictedFile repoStatePath None = Return this
      ∧ isValid this = true
      ∧ pnpmShrinkwrapHash this = None
      ∧ preferredVersionsHash this = None.
Proof.
  split; [reflexivity|]. split; [reflexivity|].
  apply (loadFromFile_misses_marker_on_first_line (fileSystem := memoryFileSystem)
           (jsonFile := jsonFile) conflictedFile repoStatePath None notJson);
    reflexivity.
Defined.

(** The same conflict one line further down, below the banner, is
    recovered from. *)
Example loadFromFile_conflict_below_banner :
  load {[ repoStatePath := conflictOnSecondLine ]} repoStatePath None
  = Return {| _repoStateFilePath := repoStatePath; _variant := None;
              _pnpmShrinkwrapHash := Some "INVALID";
              _preferredVersionsHash := Some "INVALID";
              _isValid := false; _modified := false |}.
Proof. reflexivity. Qed.

(** A marker at the second character of a content none of whose lines
    begins with it is taken for a conflict. *)
Example loadFromFile_marker_at_second_character :
  hasConflictLine "x<<<<<<<" = false
  ∧ load {[ repoStatePath := "x<<<<<<<" ]} repoStatePath None
    = Return {| _repoStateFilePath := repoStatePath; _variant := None;
                _pnpmShrinkwrapHash := Some "INVALID";
                _preferredVersionsHash := Some "INVALID";
                _isValid := false; _modified := false |}.
Proof. split; reflexivity. Qed.

(** With lockfile tracking enabled and no committed lockfile, a fresh
    tracker stays without [pnpmShrinkwrapHash] and nothing is written. *)
Lemma refreshState_enabled_flag_without_field :
  preventShrinkwrapChanges lockfileOnly = true
  ∧ refresh ∅ (new None true repoStatePath None) lockfileOnly ∅
    = (Return false, new None true repoStatePath None, ∅)
  ∧ pnpmShrinkwrapHash (new None true repoStatePath None) = None.
Proof. split_and!; reflexivity. Qed.

Lemma refreshState_field_presence_witness :
  refresh lockfileAbc (tracker (Some "old") (Some "stale")) workspacesOnly ∅
    = (Return true, tracker None (Some "v1"), written None (Some "v1"))
  ∧ preventShrinkwrapChanges workspacesOnly = false
  ∧ usesWorkspaces workspacesOnly = true
  ∧ pnpmShrinkwrapHash (tracker None (Some "v1")) = None
  ∧ getProperty (serializedJson (tracker None (Some "v1"))) "pnpmShrinkwrapHash" = None
  ∧ preferredVersionsHash (tracker None (Some "v1")) = Some "v1"
  ∧ getProperty (serializedJson (tracker None (Some "v1"))) "preferredVersionsHash"
    = Some (JString "v1").
Proof.
  assert (refresh lockfileAbc (tracker (Some "old") (Some "stale")) workspacesOnly ∅
          = (Return true, tracker None (Some "v1"), written None (Some "v1"))) as Hrun
    by reflexivity.
  destruct (refreshState_field_presence (fileSystem := memoryFileSystem)
              (jsonFile := jsonFile) (lockfileLoader := lockfiles lockfileAbc)
              _ _ _ _ _ _ Hrun) as (Hlock & _ & Hwork & _).
  destruct (Hlock eq_refl) as [Hfield Hrecord].
  destruct (Hwork eq_refl "v1" eq_refl) as [Hfield' Hrecord'].
  split_and!; [exact Hrun|reflexivity|reflexivity|exact Hfield|exact Hrecord|exact Hfield'|].
  apply Hrecord'. discriminate.
Defined.

(** C4, as stated, fails: with lockfile tracking enabled and no committed
    lockfile, the stored hash ["abc"] is still there after [refreshState],
    and nothing is written. *)
Lemma refreshState_missing_lockfile_hash_not_cleared :
  load abcFile repoStatePath None = Return (tracker (Some "abc") None)
  ∧ preventShrinkwrapChanges lockfileOnly = true
  ∧ PnpmShrinkwrapFile_loadFromFile (PnpmShrinkwrapFileLoader := lockfiles ∅)
      (getCommittedShrinkwrapFilename lockfileOnly None) (pnpmOptions lockfileOnly) = None
  ∧ refresh ∅ (tracker (Some "abc") None) lockfileOnly abcFile
    = (Return false, tracker (Some "abc") None, abcFile)
  ∧ pnpmShrinkwrapHash (tracker (Some "abc") None) = Some "abc".
Proof. split_and!; reflexivity. Qed.

Lemma refreshState_keeps_hash_without_lockfile_witness :
  preventShrinkwrapChanges bothTracked = true
  ∧ PnpmShrinkwrapFile_loadFromFile (PnpmShrinkwrapFileLoader := lockfiles ∅)
      (getCommittedShrinkwrapFilename bothTracked None) (pnpmOptions bothTracked) = None
  ∧ refresh ∅ (tracker (Some "abc") None) bothTracked abcFile
    = (Return true, tracker (Some "abc") (Some "v1"), written (Some "abc") (Some "v1"))
  ∧ refreshShrinkwrapHash (lockfileLoader := lockfiles ∅) (tracker (Some "abc") None)
      bothTracked = tracker (Some "abc") None
  ∧ pnpmShrinkwrapHash (tracker (Some "abc") (Some "v1"))
    = pnpmShrinkwrapHash (tracker (Some "abc") None).
Proof.
  assert (refresh ∅ (tracker (Some "abc") None) bothTracked abcFile
          = (Return true, tracker (Some "abc") (Some "v1"),
             written (Some "abc") (Some "v1"))) as Hrun by reflexivity.
  assert (PnpmShrinkwrapFile_loadFromFile (PnpmShrinkwrapFileLoader := lockfiles ∅)
            (getCommittedShrinkwrapFilename bothTracked
               (_variant (tracker (Some "abc") None)))
            (pnpmOptions bothTracked) = None) as Hmissing by reflexivity.
  destruct (refreshState_keeps_hash_without_lockfile (fileSystem := memoryFileSystem)
              (jsonFile := jsonFile) (lockfileLoader := lockfiles ∅)
              (tracker (Some "abc") None) bothTracked abcFile _ _ _
              eq_refl Hmissing Hrun) as (Hhalf & Hkept & _).
  split_and!; [reflexivity|reflexivity|exact Hrun|exact Hhalf|exact Hkept].
Defined.

Lemma refreshState_idempotent_witness :
  refreshJournalled lockfileAbc (tracker None (Some "stale")) lockfileOnly (∅, [])
    = (Return true, tracker (Some "abc") None,
       (written (Some "abc") None,
        [(repoStatePath, fileContent (jsonFile := jsonFile) (tracker (Some "abc") None))]))
  ∧ refreshJournalled lockfileAbc (tracker (Some "abc") None) lockfileOnly
      (written (Some "abc") None,
       [(repoStatePath, fileContent (jsonFile := jsonFile) (tracker (Some "abc") None))])
    = (Return false, tracker (Some "abc") None,
       (written (Some "abc") None,
        [(repoStatePath, fileContent (jsonFile := jsonFile) (tracker (Some "abc") None))])).
Proof.
  assert (refreshJournalled lockfileAbc (tracker None (Some "stale")) lockfileOnly (∅, [])
          = (Return true, tracker (Some "abc") None,
             (written (Some "abc") None,
              [(repoStatePath,
                fileContent (jsonFile := jsonFile) (tracker (Some "abc") None))])))
    as Hrun by reflexivity.
  destruct (refreshState_idempotent (fileSystem := journalFileSystem)
              (jsonFile := jsonFile) (lockfileLoader := lockfiles lockfileAbc)
              _ _ _ _ _ _ Hrun) as [Hsecond _].
  split; [exact Hrun|exact Hsecond].
Defined.

(** A refresh after a recovered conflict makes the tracker valid again and
    rewrites the file. *)
Example refreshState_after_conflict :
  load {[ repoStatePath := conflictOnSecondLine ]} repoStatePath None
  = Return {| _repoStateFilePath := repoStatePath; _variant := None;
              _pnpmShrinkwrapHash := Some "INVALID";
              _preferredVersionsHash := Some "INVALID";
              _isValid := false; _modified := false |}
  ∧ refresh lockfileAbc
      {| _repoStateFilePath := repoStatePath; _variant := None;
         _pnpmShrinkwrapHash := Some "INVALID";
         _preferredVersionsHash := Some "INVALID";
         _isValid := false; _modified := false |}
      bothTracked {[ repoStatePath := conflictOnSecondLine ]}
    = (Return true, tracker (Some "abc") (Some "v1"), written (Some "abc") (Some "v1")).
Proof. split; reflexivity. Qed.

(** C7, as stated, fails: a lockfile hash that is the empty string (read
    from a state file that holds one, and kept by [refreshState] while the
    lockfile is missing) is left out by [_serialize], so the tracker loaded
    from the written file has no lockfile hash. *)
Lemma round_trip_drops_empty_hash :
  load emptyHashFile repoStatePath None = Return (tracker (Some EmptyString) None)
  ∧ refresh ∅ (tracker (Some EmptyString) None) bothTracked emptyHashFile
    = (Return true, tracker (Some EmptyString) (Some "v1"),
       written (Some EmptyString) (Some "v1"))
  ∧ load (written (Some EmptyString) (Some "v1")) repoStatePath None
    = Return (tracker None (Some "v1"))
  ∧ pnpmShrinkwrapHash (tracker (Some EmptyString) (Some "v1"))
    ≠ pnpmShrinkwrapHash (tracker None (Some "v1")).
Proof. split_and!; [reflexivity|reflexivity|reflexivity|discriminate]. Qed.

Lemma save_then_load_round_trip_witness :
  pnpmShrinkwrapHash (set_modified (tracker (Some "abc") (Some "v1")) true)
    ≠ Some EmptyString
  ∧ preferredVersionsHash (set_modified (tracker (Some "abc") (Some "v1")) true)
    ≠ Some EmptyString
  ∧ writeFile (FileSystem := memoryFileSystem) ∅ repoStatePath
      (fileContent (jsonFile := jsonFile) (tracker (Some "abc") (Some "v1")))
    = Return (written (Some "abc") (Some "v1"))
  ∧ readFile (FileSystem := memoryFileSystem) (written (Some "abc") (Some "v1"))
      repoStatePath
    = Return (fileContent (jsonFile := jsonFile) (tracker (Some "abc") (Some "v1")))
  ∧ parseString (JsonFile := jsonFile)
      (fileContent (jsonFile := jsonFile) (tracker (Some "abc") (Some "v1")))
    = Return (serializedJson (tracker (Some "abc") (Some "v1")))
  ∧ ∃ saved loaded,
      save (set_modified (tracker (Some "abc") (Some "v1")) true) ∅
        = (Return true, saved, written (Some "abc") (Some "v1"))
      ∧ load (written (Some "abc") (Some "v1")) repoStatePath None = Return loaded
      ∧ pnpmShrinkwrapHash loaded = Some "abc"
      ∧ preferredVersionsHash loaded = Some "v1"
      ∧ isValid loaded = true
      ∧ serializedJson loaded = serializedJson (tracker (Some "abc") (Some "v1")).
Proof.
  split_and!; [discriminate|discriminate|reflexivity|reflexivity|reflexivity|].
  apply (save_then_load_round_trip (fileSystem := memoryFileSystem)
           (jsonFile := jsonFile)
           (set_modified (tracker (Some "abc") (Some "v1")) true)
           ∅ (written (Some "abc") (Some "v1")) None);
    [discriminate|discriminate|reflexivity|reflexivity|reflexivity|reflexivity].
Defined.

Lemma refreshState_concrete_scenario_witness :
  preventShrinkwrapChanges lockfileOnly = true
  ∧ PnpmShrinkwrapFile_loadFromFile (PnpmShrinkwrapFileLoader := lockfiles lockfileAbc)
      (getCommittedShrinkwrapFilename lockfileOnly None) (pnpmOptions lockfileOnly)
    = Some {| getShrinkwrapHash := fun _ => "abc" |}
  ∧ usesWorkspaces lockfileOnly = false
  ∧ written (Some "abc") None
    = <[repoStatePath :=
          banner +:+ LF
          +:+ "{" +:+ LF
          +:+ "  " +:+ DQUOTE +:+ "pnpmShrinkwrapHash" +:+ DQUOTE +:+ ": "
          +:+ DQUOTE +:+ "abc" +:+ DQUOTE +:+ LF
          +:+ "}" +:+ LF]> ∅
  ∧ ∃ this',
      refresh lockfileAbc (tracker (Some "abc") (Some "stale")) lockfileOnly ∅
        = (Return true, this', written (Some "abc") None)
      ∧ pnpmShrinkwrapHash this' = Some "abc"
      ∧ preferredVersionsHash this' = None
      ∧ serializedJson this' = JObject [("pnpmShrinkwrapHash", JString "abc")].
Proof.
  split_and!; [reflexivity|reflexivity|reflexivity|reflexivity|].
  apply (refreshState_concrete_scenario (fileSystem := memoryFileSystem)
           (jsonFile := jsonFile) (lockfileLoader := lockfiles lockfileAbc)
           (tracker (Some "abc") (Some "stale")) lockfileOnly
           ∅ (written (Some "abc") None)
           {| getShrinkwrapHash := fun _ => "abc" |} "stale");
    reflexivity.
Defined.

End OnReference.

End RepoStateFileProperties.

(** ** Properties of CustomTipsConfiguration *)

Module CustomTipsProperties.
Import CustomTipsConfiguration.

Lemma append_assoc (a b c : string) : (a +:+ b) +:+ c = a +:+ (b +:+ c).
Proof.
  induction a as [|x a IH]; [reflexivity|].
  change (String x ((a +:+ b) +:+ c) = String x (a +:+ (b +:+ c))). by rewrite IH.
Qed.

Lemma display_app a b : display (a ++ b) = display a +:+ display b.
Proof.
  induction a as [|w a IH]; [done|]. cbn [display app]. by rewrite IH, append_assoc.
Qed.

Section Shown.
Context {printUtilities : PrintUtilities}.

Lemma writeMessageWithPipes_undefined this terminal severity tipId :
  _tipMap this !! idString tipId = None →
  _writeMessageWithPipes this terminal severity tipId = terminal.
Proof. intros Hnone. unfold _writeMessageWithPipes. by rewrite Hnone. Qed.

Lemma show_nothing_without_message this terminal tipId :
  _tipMap this !! idString tipId = None →
  _showTip this terminal tipId = terminal
  ∧ _showInfoTip this terminal tipId = terminal
  ∧ _showWarningTip this terminal tipId = terminal
  ∧ _showErrorTip this terminal tipId = terminal.
Proof.
  intros Hnone. unfold _showTip, _showInfoTip, _showWarningTip, _showErrorTip.
  rewrite Hnone. by rewrite !writeMessageWithPipes_undefined.
Qed.

Lemma showTip_severity this terminal tipId :
  _showTip this terminal tipId = _showErrorTip this terminal tipId.
Proof.
  unfold _showTip, _showErrorTip, _writeMessageWithPipes.
  destruct (_tipMap this !! idString tipId); [|done]. by destruct tipId.
Qed.

Lemma display_lines severity lines :
  display (concat (map (writeLineWithPipe severity) lines)) =
    framed (match severity with Info => "| " +:+ LF | _ => "| " end)
           (map removeIndent lines).
Proof.
  induction lines as [|line lines IH]; [done|].
  cbn [map concat]. rewrite display_app, IH.
  destruct severity; cbn [writeLineWithPipe display written framed];
    by rewrite !append_assoc.
Qed.

Lemma writeMessageWithPipes_display this terminal severity tipId item :
  _tipMap this !! idString tipId = Some item →
  display (_writeMessageWithPipes this terminal severity tipId) =
    display terminal
    +:+ ("| Custom Tip (" +:+ idString tipId +:+ ")" +:+ LF +:+ "|" +:+ LF)
    +:+ framed (match severity with Info => "| " +:+ LF | _ => "| " end) (messageLines item)
    +:+ LF.
Proof.
  intros Hsome. unfold _writeMessageWithPipes. rewrite Hsome.
  rewrite !display_app, display_lines. f_equal. f_equal.
  unfold _formatMessageHeader.
  destruct severity; cbn [display written]; by rewrite !append_assoc.
Qed.


(** C9.  The design document has every line of a tip's message framed by a
    [| ] left margin, at the severity of the call.  At severity [Info] the
    margin is written with [writeLine], as the [Error] and [Warning]
    branches do not: [_showInfoTip] puts [| ] on a terminal line of its own
    and the message line, without margin, on the next. *)
Theorem showInfoTip_pipe_on_line_of_its_own this terminal tipId item :
  _tipMap this !! idString tipId = Some item →
  _showInfoTip this terminal tipId =
    terminal
    ++ [writeLine (_formatMessageHeader tipId)]
    ++ concat (map (fun line => [writeLine "| "; writeLine line]) (messageLines item))
    ++ [write LF]
  ∧ display (_showInfoTip this terminal tipId) =
      display terminal
      +:+ ("| Custom Tip (" +:+ idString tipId +:+ ")" +:+ LF +:+ "|" +:+ LF)
      +:+ framed ("| " +:+ LF) (messageLines item)
      +:+ LF.
Proof.
  intros Hsome. split.
  - unfold _showInfoTip, _writeMessageWithPipes, messageLines. rewrite Hsome.
    do 2 f_equal. f_equal. rewrite map_map. reflexivity.
  - unfold _showInfoTip. by rewrite (writeMessageWithPipes_display _ _ _ _ _ Hsome).
Qed.

(** At the severities [Error] and [Warning] the margin and the line share
    a terminal line. *)
Lemma show_tip_framed this terminal tipId item :
  _tipMap this !! idString tipId = Some item →
  let shown :=
    display terminal
    +:+ ("| Custom Tip (" +:+ idString tipId +:+ ")" +:+ LF +:+ "|" +:+ LF)
    +:+ framed "| " (messageLines item)
    +:+ LF in
  display (_showTip this terminal tipId) = shown
  ∧ display (_showErrorTip this terminal tipId) = shown
  ∧ display (_showWarningTip this terminal tipId) = shown.
Proof.
  intros Hsome shown. rewrite showTip_severity.
  unfold _showErrorTip, _showWarningTip.
  by rewrite !(writeMessageWithPipes_display _ _ _ _ _ Hsome).
Qed.

End Shown.

(** *** The constructor *)

Section Constructor.
Context {FS : Type} {fileSystem : FileSystem FS} {tipsLoader : CustomTipsJsonLoader FS}
  {path : Path}.






(** A loop that returns has inserted every item. *)
Lemma registerTips_return file tips tipMap :
  Forall (fun item => inCustomTipId (tipId item) = true) tips →
  NoDup (tipId <$> tips) →
  (∀ item, item ∈ tips → tipMap !! tipId item = None) →
  ∃ tipMap',
    registerTips file tips tipMap = Return tipMap'
    ∧ (∀ item, item ∈ tips → tipMap' !! tipId item = Some item)
    ∧ (∀ id, id ∉ tipId <$> tips → tipMap' !! id = tipMap !! id)
    ∧ size tipMap' = size tipMap + length tips.
Proof.
  revert tipMap. induction tips as [|head rest IH]; intros tipMap Hknown Hnodup Hfresh.
  - exists tipMap. cbn. split_and!; try done. intros item Hin. by apply elem_of_nil in Hin.
  - apply Forall_cons in Hknown as [Hhead Hknown].
    rewrite fmap_cons in Hnodup. apply NoDup_cons in Hnodup as [Hnotin Hnodup].
    cbn [registerTips]. rewrite Hhead. cbn [negb].
    assert (tipMap !! tipId head = None) as Hnone by (apply Hfresh; left).
    rewrite bool_decide_eq_false_2 by (rewrite Hnone; by intros [? ?]).
    destruct (IH (<[tipId head := head]> tipMap) Hknown Hnodup)
      as (tipMap' & -> & Hall & Hother & Hsize).
    { intros item Hin. rewrite lookup_insert_ne.
      - apply Hfresh. by right.
      - intros Heq. apply Hnotin. rewrite Heq. by apply list_elem_of_fmap_2. }
    exists tipMap'. split_and!; [done| | |].
    + intros item [->|Hin]%elem_of_cons; [|by apply Hall].
      rewrite (Hother _ Hnotin). apply lookup_insert_eq.
    + intros id Hid. rewrite fmap_cons in Hid. apply not_elem_of_cons in Hid as [Hne Hid].
      rewrite (Hother _ Hid). by rewrite lookup_insert_ne.
    + rewrite Hsize, map_size_insert_None by done. cbn. lia.
Qed.

(** Only a list of known, pairwise different, not yet registered
    identifiers gets through the loop. *)
Lemma registerTips_return_inv file tips tipMap tipMap' :
  registerTips file tips tipMap = Return tipMap' →
  Forall (fun item => inCustomTipId (tipId item) = true) tips
  ∧ NoDup (tipId <$> tips)
  ∧ (∀ item, item ∈ tips → tipMap !! tipId item = None).
Proof.
  revert tipMap. induction tips as [|head rest IH]; intros tipMap.
  - intros _. split_and!; [constructor|constructor|].
    intros item Hin. by apply elem_of_nil in Hin.
  - cbn [registerTips].
    destruct (inCustomTipId (tipId head)) eqn:Hknown; cbn [negb]; [|discriminate].
    case_bool_decide as Hhas; [discriminate|].
    intros Hrest. apply IH in Hrest as (Hall & Hnodup & Hfresh).
    assert (tipMap !! tipId head = None) as Hnone.
    { destruct (tipMap !! tipId head) eqn:E; [|done]. exfalso. apply Hhas. eauto. }
    assert (tipId head ∉ tipId <$> rest) as Hnotin.
    { intros (item & Heq & Hin)%list_elem_of_fmap.
      specialize (Hfresh item Hin). rewrite <- Heq, lookup_insert_eq in Hfresh. done. }
    split_and!.
    + by constructor.
    + rewrite fmap_cons. by apply NoDup_cons.
    + intros item [->|Hin]%elem_of_cons; [done|].
      specialize (Hfresh item Hin).
      rewrite lookup_insert_ne in Hfresh; [done|].
      intros Heq. apply Hnotin. rewrite Heq. by apply list_elem_of_fmap_2.
Qed.


(** Without a configuration file the instance is empty. *)
Lemma constructor_without_file fs configFilename :
  fileExists fs configFilename = false →
  new fs configFilename
  = Return {| _tipMap := ∅; _jsonFileName := configFilename;
              configuration := {| customTips := None |} |}.
Proof. intros Hnone. unfold new. by rewrite Hnone. Qed.

End Constructor.

(** *** The properties on the reference collaborators *)

Section OnReference.
Import Reference Scenarios.

Lemma showInfoTip_pipe_on_line_of_its_own_witness :
  _tipMap oneTip !! idString TIP_RUSH_INCONSISTENT_VERSIONS = Some inconsistentVersionsTip
  ∧ showInfoTip oneTip [] TIP_RUSH_INCONSISTENT_VERSIONS
    = [writeLine ("| Custom Tip (TIP_RUSH_INCONSISTENT_VERSIONS)" +:+ LF +:+ "|");
       writeLine "| "; writeLine "Run rush update.";
       writeLine "| "; writeLine "Then commit.";
       write LF]
  ∧ display (showInfoTip oneTip [] TIP_RUSH_INCONSISTENT_VERSIONS)
    = "| Custom Tip (TIP_RUSH_INCONSISTENT_VERSIONS)" +:+ LF
      +:+ "|" +:+ LF
      +:+ "| " +:+ LF
      +:+ "Run rush update." +:+ LF
      +:+ "| " +:+ LF
      +:+ "Then commit." +:+ LF
      +:+ LF.
Proof.
  destruct (showInfoTip_pipe_on_line_of_its_own (printUtilities := wideTerminal)
              oneTip [] TIP_RUSH_INCONSISTENT_VERSIONS inconsistentVersionsTip eq_refl)
    as [Hwrites Hshown].
  split_and!; [reflexivity|exact Hwrites|exact Hshown].
Defined.

(** The same tip shown at its registered severity. *)
Example showTip_framed_at_error_severity :
  @_showTip wideTerminal oneTip [] TIP_RUSH_INCONSISTENT_VERSIONS
  = [writeErrorLine ("| Custom Tip (TIP_RUSH_INCONSISTENT_VERSIONS)" +:+ LF +:+ "|");
     writeError "| "; writeLine "Run rush update.";
     writeError "| "; writeLine "Then commit.";
     write LF].
Proof. reflexivity. Qed.



(** An identifier outside the enumeration and a repeated identifier are
    both turned down, with the base name of the file in the message. *)
Example constructor_unknown_id :
  registerTips (path := posixPath) customTipsPath
    [inconsistentVersionsTip; {| tipId := "TIP_NO_SUCH_THING"; message := "?" |}] ∅
  = Throw (NewError ("The custom-tips.json configuration references an unknown ID "
                     +:+ DQUOTE +:+ "TIP_NO_SUCH_THING" +:+ DQUOTE)).
Proof. reflexivity. Qed.

Example constructor_duplicate_id :
  registerTips (path := posixPath) customTipsPath
    [inconsistentVersionsTip; inconsistentVersionsTip] ∅
  = Throw (NewError ("The custom-tips.json configuration specifies a duplicate definition for "
                     +:+ DQUOTE +:+ "TIP_RUSH_INCONSISTENT_VERSIONS" +:+ DQUOTE)).
Proof. reflexivity. Qed.

End OnReference.

End CustomTipsProperties.

(** ** Further properties of RepoStateFile *)

Module RepoStateFileFurther.
Import RepoStateFile RepoStateFileProperties.

(** *** loadFromFile *)

Section Load.
Context {FS : Type} {fileSystem : FileSystem FS} {jsonFile : JsonFile}.

(** A state file that does not exist, or exists and is empty, is no record
    yet: the tracker is empty and valid, and nothing is parsed. *)
Theorem loadFromFile_without_record fs jsonFilename variant :
  (∃ error, readFile fs jsonFilename = Throw error ∧ isNotExistError error = true)
  ∨ readFile fs jsonFilename = Return EmptyString →
  loadFromFile fs jsonFilename variant = Return (new None true jsonFilename variant)
  ∧ isValid (new None true jsonFilename variant) = true
  ∧ pnpmShrinkwrapHash (new None true jsonFilename variant) = None
  ∧ preferredVersionsHash (new None true jsonFilename variant) = None.
Proof.
  intros [(error & Hread & Hnot)|Hread]; (split; [|done]).
  - by apply (loadFromFile_absent _ _ _ error).
  - unfold loadFromFile, readFileIfExists. by rewrite Hread.
Qed.

(** A state file holding a falsy JSON value ([null], [false], [0], the
    empty string) is not validated and gives the empty valid tracker. *)
Theorem loadFromFile_falsy_json fs jsonFilename variant contents v :
  readFile fs jsonFilename = Return contents →
  contents ≠ EmptyString →
  parseString contents = Return v →
  truthy v = false →
  loadFromFile fs jsonFilename variant = Return (new None true jsonFilename variant).
Proof.
  intros Hread Hne Hparse Hfalsy.
  rewrite (loadFromFile_unfold _ _ _ _ Hread Hne).
  unfold parseOrFindMarker, validateIfPresent, new. rewrite Hparse, Hfalsy. done.
Qed.

(** A state file holding a truthy JSON value is validated: against the
    schema it either throws the schema error for that file, or gives a valid
    unmodified tracker with the two properties of the value. *)
Theorem loadFromFile_parsed fs jsonFilename variant contents v :
  readFile fs jsonFilename = Return contents →
  contents ≠ EmptyString →
  parseString contents = Return v →
  truthy v = true →
  loadFromFile fs jsonFilename variant =
    if _jsonSchema v
    then Return {| _repoStateFilePath := jsonFilename;
                   _variant := variant;
                   _pnpmShrinkwrapHash := getStringProperty v "pnpmShrinkwrapHash";
                   _preferredVersionsHash := getStringProperty v "preferredVersionsHash";
                   _isValid := true;
                   _modified := false |}
    else Throw (SchemaError jsonFilename).
Proof.
  intros Hread Hne Hparse Htruthy.
  rewrite (loadFromFile_unfold _ _ _ _ Hread Hne).
  unfold parseOrFindMarker, validateIfPresent, validateObject, new.
  rewrite Hparse, Htruthy. by destruct (_jsonSchema v).
Qed.

(** Whatever [loadFromFile] returns is unmodified, carries the path and the
    variant it was given, and is invalid only with the sentinel in both
    hashes. *)
Theorem loadFromFile_result fs jsonFilename variant this :
  loadFromFile fs jsonFilename variant = Return this →
  _modified this = false
  ∧ filePath this = jsonFilename
  ∧ _variant this = variant
  ∧ (isValid this = false →
     pnpmShrinkwrapHash this = Some "INVALID"
     ∧ preferredVersionsHash this = Some "INVALID").
Proof.
  unfold loadFromFile.
  destruct (readFileIfExists fs jsonFilename) as [[contents|]|error]; cbn [bind];
    [|by intros [= <-]|discriminate].
  destruct (truthyString (Some contents)); [|by intros [= <-]].
  unfold parseOrFindMarker.
  destruct (parseString contents) as [v|error].
  - destruct (validateIfPresent (Some v) jsonFilename); cbn [bind]; [|discriminate].
    by intros [= <-].
  - destruct (foundMergeConflictMarker contents).
    + cbn. by intros [= <-].
    + cbn. by intros [= <-].
Qed.

End Load.

(** *** The scan *)

Lemma scanLoop_more_fuel fuel extra s i b :
  scanLoop fuel s i = Some b → scanLoop (fuel + extra) s i = Some b.
Proof.
  revert i. induction fuel as [|fuel IH]; intros i; [discriminate|].
  cbn [scanLoop Nat.add]. destruct (String.eqb _ _); [done|].
  destruct (indexOf s LF (i + 1)); [apply IH|done].
Qed.

(** Where the content does not begin with the marker and does not carry
    it at its second character, the loop and the test by lines agree. *)
Theorem scan_agrees_with_lines s :
  beginsWithMarker s = false →
  substr s 1 7 ≠ mergeConflictMarker →
  foundMergeConflictMarker s = hasConflictLine s.
Proof.
  intros Hfirst Hsecond.
  assert (hasConflictLine s = existsb beginsWithMarker (tail (splitLines s))) as ->.
  { unfold hasConflictLine.
    pose proof (prefix_first_line mergeConflictMarker s eq_refl) as Hhead.
    destruct (splitLines_cons s) as (line & lines & Hs).
    rewrite Hs in *. cbn [existsb hd tail] in *.
    unfold beginsWithMarker in *. by rewrite Hhead, Hfirst. }
  pose proof (foundMergeConflictMarker_lines s) as Hlines.
  destruct (foundMergeConflictMarker s), (existsb _ _); try done.
  - by destruct (proj1 Hlines eq_refl).
  - apply Hlines. by right.
Qed.

(** The loop ends within the fuel [foundMergeConflictMarker] gives it, and
    more fuel does not change its answer. *)
Theorem scanLoop_enough_fuel fuel s :
  S (String.length s) ≤ fuel →
  scanLoop fuel s 0 = Some (foundMergeConflictMarker s).
Proof.
  intros Hfuel. unfold foundMergeConflictMarker.
  destruct (scanLoop_total (S (String.length s)) s 0) as [b Hb]; [lia|].
  replace fuel with (S (String.length s) + (fuel - S (String.length s))) by lia.
  rewrite (scanLoop_more_fuel _ _ _ _ _ Hb), Hb. by destruct b.
Qed.

(** *** refreshState *)

Section Refresh.
Context {FS : Type} {fileSystem : FileSystem FS} {jsonFile : JsonFile}
  {lockfileLoader : PnpmShrinkwrapFileLoader}.

Lemma strictNotEqual_eq a b : strictNotEqual a b = false ↔ a = b.
Proof.
  split; [apply strictNotEqual_false|]. intros ->. apply strictNotEqual_refl.
Qed.

(** The two halves of [refreshState] do not depend on their order. *)
Theorem refresh_halves_commute this cfg :
  refreshPreferredVersionsHash (refreshShrinkwrapHash this cfg) cfg
  = refreshShrinkwrapHash (refreshPreferredVersionsHash this cfg) cfg.
Proof.
  destruct this as [path variant pnpmHash preferredHash valid modified].
  unfold refreshPreferredVersionsHash, refreshShrinkwrapHash,
    set_modified, set_pnpmShrinkwrapHash, set_preferredVersionsHash.
  cbn [_repoStateFilePath _variant _pnpmShrinkwrapHash _preferredVersionsHash
       _isValid _modified].
  repeat (case_match; cbn [_repoStateFilePath _variant _pnpmShrinkwrapHash
       _preferredVersionsHash _isValid _modified] in *); simplify_eq; done || congruence.
Qed.

Lemma refreshShrinkwrapHash_modified this cfg :
  _modified (refreshShrinkwrapHash this cfg)
  = _modified this
    || strictNotEqual (_pnpmShrinkwrapHash this)
         (_pnpmShrinkwrapHash (refreshShrinkwrapHash this cfg)).
Proof.
  unfold refreshShrinkwrapHash.
  repeat case_match; cbn [set_modified set_pnpmShrinkwrapHash _modified _pnpmShrinkwrapHash];
    rewrite ?strictNotEqual_refl, ?orb_false_r; try done.
  all: match goal with H : strictNotEqual _ _ = true |- _ => rewrite H end;
    by rewrite orb_true_r.
Qed.

Lemma refreshPreferredVersionsHash_modified this cfg :
  _modified (refreshPreferredVersionsHash this cfg)
  = _modified this
    || strictNotEqual (_preferredVersionsHash this)
         (_preferredVersionsHash (refreshPreferredVersionsHash this cfg)).
Proof.
  unfold refreshPreferredVersionsHash.
  repeat case_match;
    cbn [set_modified set_preferredVersionsHash _modified _preferredVersionsHash];
    rewrite ?strictNotEqual_refl, ?orb_false_r; try done.
  all: match goal with H : strictNotEqual _ _ = true |- _ => rewrite H end;
    by rewrite orb_true_r.
Qed.

(** [_modified] after the two halves: what it was, or a hash changed. *)
Lemma refreshFields_modified this cfg :
  _modified (refreshFields this cfg)
  = _modified this
    || strictNotEqual (_pnpmShrinkwrapHash this)
         (_pnpmShrinkwrapHash (refreshFields this cfg))
    || strictNotEqual (_preferredVersionsHash this)
         (_preferredVersionsHash (refreshFields this cfg)).
Proof.
  destruct (refreshFields_hashes this cfg) as (-> & -> & _).
  unfold refreshFields. cbn [set_isValid _modified].
  rewrite refreshPreferredVersionsHash_modified, refreshShrinkwrapHash_modified.
  by destruct (refreshShrinkwrapHash_fields this cfg) as (_ & _ & -> & _).
Qed.

(** A tracker that is not modified is written exactly when one of its two
    hashes changes: [refreshState] returns [false], and touches neither the
    file system nor the hashes, if and only if both hashes stay as they
    were. *)
Theorem refreshState_writes_iff_changed this cfg fs result this' fs' :
  _modified this = false →
  refreshState this cfg fs = (result, this', fs') →
  (pnpmShrinkwrapHash this' = pnpmShrinkwrapHash this
   ∧ preferredVersionsHash this' = preferredVersionsHash this)
  ↔ (result = Return false ∧ fs' = fs).
Proof.
  intros Hclean Hrun. rewrite refreshState_unfold in Hrun.
  pose proof (saveIfModified_hashes (refreshFields this cfg) fs) as (Hp & Hv & _).
  rewrite Hrun in Hp, Hv. cbn [fst snd] in Hp, Hv.
  pose proof (refreshFields_modified this cfg) as Hmod. rewrite Hclean in Hmod.
  unfold pnpmShrinkwrapHash, preferredVersionsHash. rewrite Hp, Hv.
  unfold _saveIfModified in Hrun. split.
  - intros [Heqp Heqv]. rewrite Heqp, Heqv, !strictNotEqual_refl in Hmod.
    rewrite Hmod in Hrun. by injection Hrun as <- _ <-.
  - intros [-> ->].
    destruct (_modified (refreshFields this cfg)) eqn:Hm.
    + destruct (writeFile _ _ _); discriminate.
    + symmetry in Hmod. apply orb_false_iff in Hmod as [Hp' Hv'].
      cbn in Hp'. apply strictNotEqual_eq in Hp'. apply strictNotEqual_eq in Hv'. done.
Qed.

(** [refreshState] never changes the path or the variant, and a call that
    returns leaves the tracker unmodified. *)
Theorem refreshState_keeps_identity this cfg fs result this' fs' :
  refreshState this cfg fs = (result, this', fs') →
  filePath this' = filePath this
  ∧ _variant this' = _variant this
  ∧ (∀ didWrite, result = Return didWrite → _modified this' = false).
Proof.
  intros Hrun. rewrite refreshState_unfold in Hrun.
  pose proof (saveIfModified_hashes (refreshFields this cfg) fs) as (_ & _ & _ & Hvar & Hpath).
  rewrite Hrun in Hvar, Hpath. cbn [fst snd] in Hvar, Hpath.
  destruct (refreshFields_hashes this cfg) as (_ & _ & Hvar' & Hpath' & _).
  unfold filePath. rewrite Hpath, Hpath', Hvar, Hvar'. split_and!; [done|done|].
  intros didWrite ->. unfold _saveIfModified in Hrun.
  destruct (_modified (refreshFields this cfg)) eqn:Hm.
  - destruct (writeFile _ _ _); [|discriminate]. by injection Hrun as _ <- _.
  - by injection Hrun as _ <- _.
Qed.

Lemma tracker_ext (a b : t) :
  _repoStateFilePath a = _repoStateFilePath b →
  _variant a = _variant b →
  _pnpmShrinkwrapHash a = _pnpmShrinkwrapHash b →
  _preferredVersionsHash a = _preferredVersionsHash b →
  _isValid a = _isValid b →
  _modified a = _modified b →
  a = b.
Proof. destruct a, b. cbn. by intros -> -> -> -> -> ->. Qed.

Lemma refreshFields_twice this cfg :
  refreshFields (refreshFields this cfg) cfg = refreshFields this cfg.
Proof.
  destruct (refreshFields_hashes this cfg) as (Hp & Hv & Hvar & Hpath & Hvalid).
  destruct (refreshFields_hashes (refreshFields this cfg) cfg)
    as (Hp2 & Hv2 & Hvar2 & Hpath2 & Hvalid2).
  rewrite refreshShrinkwrapHash_hash in Hp, Hp2.
  rewrite refreshPreferredVersionsHash_hash in Hv, Hv2.
  destruct (refreshShrinkwrapHash_fields this cfg) as (_ & Hvar' & _).
  destruct (refreshShrinkwrapHash_fields (refreshFields this cfg) cfg) as (_ & Hvar2' & _).
  rewrite Hvar' in Hv. rewrite Hvar2', Hvar in Hv2. rewrite Hvar in Hp2.
  assert (_pnpmShrinkwrapHash (refreshFields (refreshFields this cfg) cfg)
          = _pnpmShrinkwrapHash (refreshFields this cfg)) as Hsamep.
  { rewrite Hp2, Hp. destruct (preventShrinkwrapChanges cfg); [|done].
    by destruct (PnpmShrinkwrapFile_loadFromFile _ _). }
  assert (_preferredVersionsHash (refreshFields (refreshFields this cfg) cfg)
          = _preferredVersionsHash (refreshFields this cfg)) as Hsamev.
  { by rewrite Hv2, Hv. }
  apply tracker_ext; try congruence.
  rewrite refreshFields_modified, Hsamep, Hsamev, !strictNotEqual_refl.
  by rewrite !orb_false_r.
Qed.

(** When the write fails, [refreshState] throws the write's error with the
    refreshed tracker still modified and the file system as it was; calling
    it again makes the same write, and once that succeeds it returns
    [true]. *)
Theorem refreshState_failed_write_is_retried this cfg fs error :
  _modified (refreshFields this cfg) = true →
  writeFile fs (filePath this) (fileContent (refreshFields this cfg)) = Throw error →
  refreshState this cfg fs = (Throw error, refreshFields this cfg, fs)
  ∧ ∀ fs2 fs3,
      writeFile fs2 (filePath this) (fileContent (refreshFields this cfg)) = Return fs3 →
      refreshState (refreshFields this cfg) cfg fs2
      = (Return true, set_modified (refreshFields this cfg) false, fs3).
Proof.
  intros Hdirty Hfail.
  destruct (refreshFields_hashes this cfg) as (_ & _ & _ & Hpath & _).
  unfold filePath in *. rewrite <- Hpath in *.
  split.
  - rewrite refreshState_unfold. unfold _saveIfModified. by rewrite Hdirty, Hfail.
  - intros fs2 fs3 Hok. rewrite refreshState_unfold, refreshFields_twice.
    unfold _saveIfModified. by rewrite Hdirty, Hok.
Qed.

(** Lockfile tracking belongs to pnpm: with another package manager, or
    without pnpm options, the lockfile hash is absent after [refreshState]
    whatever [preventManualShrinkwrapChanges] says.  The workspace flag is
    read from the pnpm options alone: the package manager does not matter to
    the preferred-versions hash. *)
Theorem refreshState_other_package_manager this cfg fs :
  packageManager cfg ≠ pnpm ∨ pnpmOptions cfg = None →
  pnpmShrinkwrapHash (refreshState this cfg fs).1.2 = None
  ∧ preferredVersionsHash (refreshState this cfg fs).1.2
    = match pnpmOptions cfg with
      | Some options =>
          if useWorkspaces options
          then Some (getPreferredVersionsHash (getCommonVersions cfg (_variant this)))
          else None
      | None => None
      end.
Proof.
  intros Hother. rewrite refreshState_unfold.
  unfold pnpmShrinkwrapHash, preferredVersionsHash.
  destruct (saveIfModified_hashes (refreshFields this cfg) fs) as (-> & -> & _).
  destruct (refreshFields_hashes this cfg) as (-> & -> & _).
  rewrite refreshShrinkwrapHash_hash, refreshPreferredVersionsHash_hash.
  destruct (refreshShrinkwrapHash_fields this cfg) as (_ & -> & _).
  assert (preventShrinkwrapChanges cfg = false) as ->.
  { unfold preventShrinkwrapChanges.
    destruct Hother as [Hpm| ->]; [|by destruct (packageManager cfg)].
    by destruct (packageManager cfg). }
  split; [done|]. unfold usesWorkspaces. by destruct (pnpmOptions cfg).
Qed.

(** The record [_serialize] writes holds nothing but the stored hashes:
    every property is one of the two fields, with the stored, non-empty
    hash as its value. *)
Theorem serializedJson_properties this key value :
  getProperty (serializedJson this) key = Some value →
  (key = "pnpmShrinkwrapHash"
   ∧ ∃ hash, pnpmShrinkwrapHash this = Some hash
             ∧ hash ≠ EmptyString ∧ value = JString hash)
  ∨ (key = "preferredVersionsHash"
     ∧ ∃ hash, preferredVersionsHash this = Some hash
               ∧ hash ≠ EmptyString ∧ value = JString hash).
Proof.
  unfold serializedJson, setIfTruthy, truthyString, pnpmShrinkwrapHash, preferredVersionsHash.
  destruct (_pnpmShrinkwrapHash this) as [p|], (_preferredVersionsHash this) as [v|];
    cbn [getProperty getMember app];
    repeat match goal with
      | |- context [String.eqb ?a ?b] => destruct (String.eqb_spec a b); cbn [negb getMember app]
      end; try discriminate; intros [= <-]; subst; eauto 10.
Qed.

End Refresh.

(** *** On the reference collaborators *)

Section OnReference.
Import Reference Scenarios.

Lemma loadFromFile_without_record_witness :
  ((∃ error, readFile (FileSystem := memoryFileSystem) ∅ repoStatePath = Throw error
             ∧ isNotExistError error = true)
   ∨ readFile (FileSystem := memoryFileSystem) ∅ repoStatePath = Return EmptyString)
  ∧ load ∅ repoStatePath None = Return (new None true repoStatePath None).
Proof.
  assert ((∃ error, readFile (FileSystem := memoryFileSystem) ∅ repoStatePath = Throw error
                    ∧ isNotExistError error = true)
          ∨ readFile (FileSystem := memoryFileSystem) ∅ repoStatePath = Return EmptyString)
    as Hnone by (left; by exists (NotExistError repoStatePath)).
  split; [exact Hnone|].
  apply (loadFromFile_without_record (fileSystem := memoryFileSystem)
           (jsonFile := jsonFile) ∅ repoStatePath None Hnone).
Defined.

Lemma loadFromFile_read_failure_witness :
  readFile (FileSystem := guardedFileSystem {[ repoStatePath ]}) abcFile repoStatePath
    = Throw (IoError repoStatePath)
  ∧ isNotExistError (IoError repoStatePath) = false
  ∧ loadGuarded abcFile repoStatePath None = Throw (IoError repoStatePath).
Proof.
  split_and!; [reflexivity|reflexivity|].
  apply (loadFromFile_read_failure (fileSystem := guardedFileSystem {[ repoStatePath ]})
           (jsonFile := jsonFile) abcFile repoStatePath None (IoError repoStatePath));
    reflexivity.
Defined.

Lemma loadFromFile_falsy_json_witness :
  readFile (FileSystem := memoryFileSystem) nullFile repoStatePath = Return "null"%string
  ∧ parseString (JsonFile := jsonFile) "null" = Return JNull
  ∧ truthy JNull = false
  ∧ load nullFile repoStatePath None = Return (new None true repoStatePath None).
Proof.
  split_and!; [reflexivity|reflexivity|reflexivity|].
  apply (loadFromFile_falsy_json (fileSystem := memoryFileSystem) (jsonFile := jsonFile)
           nullFile repoStatePath None "null" JNull);
    [reflexivity|discriminate|reflexivity|reflexivity].
Defined.

Lemma loadFromFile_parsed_witness :
  readFile (FileSystem := memoryFileSystem) bothHashesFile repoStatePath
    = Return (fileContent (jsonFile := jsonFile) (tracker (Some "abc") (Some "v1")))
  ∧ parseString (JsonFile := jsonFile)
      (fileContent (jsonFile := jsonFile) (tracker (Some "abc") (Some "v1")))
    = Return (JObject [("pnpmShrinkwrapHash", JString "abc");
                       ("preferredVersionsHash", JString "v1")])
  ∧ load bothHashesFile repoStatePath None = Return (tracker (Some "abc") (Some "v1")).
Proof.
  split_and!; [reflexivity|reflexivity|].
  apply (loadFromFile_parsed (fileSystem := memoryFileSystem) (jsonFile := jsonFile)
           bothHashesFile repoStatePath None
           (fileContent (jsonFile := jsonFile) (tracker (Some "abc") (Some "v1")))
           (JObject [("pnpmShrinkwrapHash", JString "abc");
                     ("preferredVersionsHash", JString "v1")]));
    [reflexivity|discriminate|reflexivity|reflexivity].
Defined.

Lemma loadFromFile_result_witness :
  load {[ repoStatePath := conflictOnSecondLine ]} repoStatePath None
    = Return {| _repoStateFilePath := repoStatePath; _variant := None;
                _pnpmShrinkwrapHash := Some "INVALID";
                _preferredVersionsHash := Some "INVALID";
                _isValid := false; _modified := false |}
  ∧ _modified {| _repoStateFilePath := repoStatePath; _variant := None;
                 _pnpmShrinkwrapHash := Some "INVALID";
                 _preferredVersionsHash := Some "INVALID";
                 _isValid := false; _modified := false |} = false.
Proof.
  assert (load {[ repoStatePath := conflictOnSecondLine ]} repoStatePath None
          = Return {| _repoStateFilePath := repoStatePath; _variant := None;
                      _pnpmShrinkwrapHash := Some "INVALID";
                      _preferredVersionsHash := Some "INVALID";
                      _isValid := false; _modified := false |}) as Hload by reflexivity.
  split; [exact Hload|].
  exact (proj1 (loadFromFile_result (fileSystem := memoryFileSystem) (jsonFile := jsonFile)
                  _ _ _ _ Hload)).
Defined.

Lemma scan_agrees_with_lines_witness :
  beginsWithMarker conflictOnSecondLine = false
  ∧ substr conflictOnSecondLine 1 7 ≠ mergeConflictMarker
  ∧ foundMergeConflictMarker conflictOnSecondLine = hasConflictLine conflictOnSecondLine.
Proof.
  split_and!; [reflexivity|discriminate|].
  apply scan_agrees_with_lines; [reflexivity|discriminate].
Defined.

Lemma scanLoop_enough_fuel_witness :
  S (String.length conflictOnFirstLine) ≤ 100
  ∧ scanLoop 100 conflictOnFirstLine 0
    = Some (foundMergeConflictMarker conflictOnFirstLine).
Proof.
  assert (S (String.length conflictOnFirstLine) ≤ 100) as Hfuel by (vm_compute; lia).
  split; [exact Hfuel|]. exact (scanLoop_enough_fuel 100 conflictOnFirstLine Hfuel).
Defined.

Lemma loadFromFile_recovers_later_line_witness :
  readFile (FileSystem := memoryFileSystem) {[ repoStatePath := conflictOnSecondLine ]}
      repoStatePath = Return conflictOnSecondLine
  ∧ parseString (JsonFile := jsonFile) conflictOnSecondLine = Throw notJson
  ∧ existsb beginsWithMarker (tail (splitLines conflictOnSecondLine)) = true
  ∧ ∃ this,
      load {[ repoStatePath := conflictOnSecondLine ]} repoStatePath None = Return this
      ∧ isValid this = false
      ∧ pnpmShrinkwrapHash this = Some "INVALID"
      ∧ preferredVersionsHash this = Some "INVALID".
Proof.
  split_and!; [reflexivity|reflexivity|reflexivity|].
  apply (loadFromFile_recovers_later_line (fileSystem := memoryFileSystem)
           (jsonFile := jsonFile) {[ repoStatePath := conflictOnSecondLine ]}
           repoStatePath None conflictOnSecondLine notJson); reflexivity.
Defined.

Lemma refreshState_nothing_to_persist_witness :
  preventShrinkwrapChanges noTracking = false
  ∧ usesWorkspaces noTracking = false
  ∧ refresh lockfileAbc (new None true repoStatePath None) noTracking ∅
    = (Return false, new None true repoStatePath None, ∅).
Proof.
  split_and!; [reflexivity|reflexivity|].
  apply (refreshState_nothing_to_persist (fileSystem := memoryFileSystem)
           (jsonFile := jsonFile) (lockfileLoader := lockfiles lockfileAbc)
           repoStatePath None noTracking ∅); reflexivity.
Defined.

Lemma refreshState_writes_iff_changed_witness :
  _modified (tracker (Some "abc") None) = false
  ∧ refresh lockfileAbc (tracker (Some "abc") None) lockfileOnly abcFile
    = (Return false, tracker (Some "abc") None, abcFile)
  ∧ ((pnpmShrinkwrapHash (tracker (Some "abc") None)
      = pnpmShrinkwrapHash (tracker (Some "abc") None)
      ∧ preferredVersionsHash (tracker (Some "abc") None)
        = preferredVersionsHash (tracker (Some "abc") None))
     ↔ (Return false = Return false ∧ abcFile = abcFile)).
Proof.
  assert (refresh lockfileAbc (tracker (Some "abc") None) lockfileOnly abcFile
          = (Return false, tracker (Some "abc") None, abcFile)) as Hrun by reflexivity.
  split_and!; [reflexivity|exact Hrun|].
  exact (refreshState_writes_iff_changed (fileSystem := memoryFileSystem)
           (jsonFile := jsonFile) (lockfileLoader := lockfiles lockfileAbc)
           (tracker (Some "abc") None) lockfileOnly abcFile _ _ _ eq_refl Hrun).
Defined.

Lemma refreshState_keeps_identity_witness :
  refresh lockfileAbc (tracker None (Some "stale")) lockfileOnly ∅
    = (Return true, tracker (Some "abc") None, written (Some "abc") None)
  ∧ filePath (tracker (Some "abc") None) = filePath (tracker None (Some "stale"))
  ∧ _variant (tracker (Some "abc") None) = _variant (tracker None (Some "stale")).
Proof.
  assert (refresh lockfileAbc (tracker None (Some "stale")) lockfileOnly ∅
          = (Return true, tracker (Some "abc") None, written (Some "abc") None)) as Hrun
    by reflexivity.
  destruct (refreshState_keeps_identity (fileSystem := memoryFileSystem)
              (jsonFile := jsonFile) (lockfileLoader := lockfiles lockfileAbc)
              _ _ _ _ _ _ Hrun) as (Hpath & Hvariant & _).
  split_and!; [exact Hrun|exact Hpath|exact Hvariant].
Defined.

Lemma refreshState_failed_write_is_retried_witness :
  _modified (refreshFields (lockfileLoader := lockfiles lockfileAbc)
               (tracker None None) lockfileOnly) = true
  ∧ writeFile (FileSystem := guardedFileSystem {[ repoStatePath ]}) ∅ repoStatePath
      (fileContent (jsonFile := jsonFile)
         (refreshFields (lockfileLoader := lockfiles lockfileAbc)
            (tracker None None) lockfileOnly))
    = Throw (IoError repoStatePath)
  ∧ refreshGuarded lockfileAbc (tracker None None) lockfileOnly ∅
    = (Throw (IoError repoStatePath),
       set_modified (tracker (Some "abc") None) true, ∅).
Proof.
  split_and!; [reflexivity|reflexivity|].
  exact (proj1 (refreshState_failed_write_is_retried
                  (fileSystem := guardedFileSystem {[ repoStatePath ]})
                  (jsonFile := jsonFile) (lockfileLoader := lockfiles lockfileAbc)
                  (tracker None None) lockfileOnly ∅ (IoError repoStatePath)
                  eq_refl eq_refl)).
Defined.

Lemma refreshState_other_package_manager_witness :
  (packageManager yarnConfiguration ≠ pnpm ∨ pnpmOptions yarnConfiguration = None)
  ∧ pnpmShrinkwrapHash
      (refresh lockfileAbc (tracker (Some "abc") None) yarnConfiguration abcFile).1.2 = None
  ∧ preferredVersionsHash
      (refresh lockfileAbc (tracker (Some "abc") None) yarnConfiguration abcFile).1.2
    = Some "v1".
Proof.
  assert (packageManager yarnConfiguration ≠ pnpm ∨ pnpmOptions yarnConfiguration = None)
    as Hother by (left; discriminate).
  split; [exact Hother|].
  exact (refreshState_other_package_manager (fileSystem := memoryFileSystem)
           (jsonFile := jsonFile) (lockfileLoader := lockfiles lockfileAbc)
           (tracker (Some "abc") None) yarnConfiguration abcFile Hother).
Defined.

Lemma serializedJson_properties_witness :
  getProperty (serializedJson (tracker (Some "abc") None)) "pnpmShrinkwrapHash"
    = Some (JString "abc")
  ∧ (("pnpmShrinkwrapHash" = "pnpmShrinkwrapHash"
      ∧ ∃ hash, pnpmShrinkwrapHash (tracker (Some "abc") None) = Some hash
                ∧ hash ≠ EmptyString ∧ JString "abc" = JString hash)
     ∨ ("pnpmShrinkwrapHash" = "preferredVersionsHash"
        ∧ ∃ hash, preferredVersionsHash (tracker (Some "abc") None) = Some hash
                  ∧ hash ≠ EmptyString ∧ JString "abc" = JString hash)).
Proof.
  split; [reflexivity|].
  exact (serializedJson_properties (tracker (Some "abc") None) "pnpmShrinkwrapHash"
           (JString "abc") eq_refl).
Defined.

End OnReference.

End RepoStateFileFurther.

(** ** Further properties of CustomTipsConfiguration *)

Module CustomTipsFurther.
Import CustomTipsConfiguration CustomTipsProperties.

(** *** The registry *)

(** The registry is keyed consistently: the entry of an identifier carries
    that identifier, its severity is [Error], the prefix of the identifier
    tells the type, only the tips of pnpm have a matcher, distinct
    identifiers have distinct string values, and each of them passes the
    constructor's test. *)
Theorem customTipRegistry_consistent id :
  infoTipId (customTipRegistry id) = id
  ∧ severity (customTipRegistry id) = Error
  ∧ String.prefix (match type (customTipRegistry id) with
                   | rush => "TIP_RUSH_"
                   | pnpm => "TIP_PNPM_"
                   end) (idString id) = true
  ∧ (isMatch (customTipRegistry id) = None ↔ type (customTipRegistry id) = rush)
  ∧ isEnumMember (idString id) = true
  ∧ ∀ other, idString other = idString id → other = id.
Proof.
  split_and!.
  - by destruct id.
  - by destruct id.
  - by destruct id.
  - destruct id; cbn; split; done.
  - by destruct id.
  - intros other. destruct id, other; (done || discriminate).
Qed.

(** *** The constructor *)

Section Constructor.
Context {FS : Type} {fileSystem : FileSystem FS} {tipsLoader : CustomTipsJsonLoader FS}
  {path : Path}.

(** A configuration file that exists but cannot be loaded makes the
    constructor throw the loader's error. *)
Theorem constructor_load_failure fs configFilename error :
  fileExists fs configFilename = true →
  loadAndValidate fs configFilename = Throw error →
  new fs configFilename = Throw error.
Proof. intros Hexists Hload. unfold new. by rewrite Hexists, Hload. Qed.

(** The loop over a list is the loop over its front, then over its back. *)
Lemma registerTips_app file front back tipMap :
  registerTips file (front ++ back) tipMap
  = tipMap' ← registerTips file front tipMap;;; registerTips file back tipMap'.
Proof.
  revert tipMap. induction front as [|head rest IH]; intros tipMap; [done|].
  cbn [app registerTips]. destruct (negb _); [done|].
  case_bool_decide; [done|]. apply IH.
Qed.

(** The error is that of the first item in the list that is unknown or
    repeats an earlier identifier; what follows it is not looked at. *)
Theorem constructor_first_offender fs configFilename loaded before item after :
  fileExists fs configFilename = true →
  loadAndValidate fs configFilename = Return loaded →
  customTips loaded = Some (before ++ item :: after) →
  Forall (fun earlier => inCustomTipId (tipId earlier) = true) before →
  NoDup (tipId <$> before) →
  (inCustomTipId (tipId item) = false →
   new fs configFilename
   = Throw (NewError (unknownIdMessage configFilename (tipId item))))
  ∧ (inCustomTipId (tipId item) = true →
     tipId item ∈ tipId <$> before →
     new fs configFilename
     = Throw (NewError (duplicateIdMessage configFilename (tipId item)))).
Proof.
  intros Hexists Hload Htips Hknown Hnodup.
  unfold new. rewrite Hexists, Hload. cbn [negb bind]. rewrite Htips, registerTips_app.
  destruct (registerTips_return configFilename before ∅ Hknown Hnodup)
    as (tipMap & -> & Hall & _); [done|].
  cbn [bind registerTips]. split.
  - by intros ->.
  - intros -> (earlier & Heq & Hin)%list_elem_of_fmap. cbn [negb].
    rewrite bool_decide_eq_true_2; [done|].
    rewrite Heq, (Hall earlier Hin). by eexists.
Qed.

(** What the loop puts in the map is keyed by the item's own identifier,
    comes from the list, and has passed the [in] test. *)
Lemma registerTips_entries file tips tipMap tipMap' :
  registerTips file tips tipMap = Return tipMap' →
  ∀ key item,
    tipMap' !! key = Some item →
    tipMap !! key = Some item
    ∨ (item ∈ tips ∧ tipId item = key ∧ inCustomTipId key = true).
Proof.
  revert tipMap. induction tips as [|head rest IH]; intros tipMap.
  - intros [= <-] key item Hkey. by left.
  - cbn [registerTips].
    destruct (inCustomTipId (tipId head)) eqn:Hknown; cbn [negb]; [|discriminate].
    case_bool_decide; [discriminate|].
    intros Hrest key item Hkey.
    destruct (IH _ Hrest key item Hkey) as [Hold|(Hin & Hid & Hok)].
    + destruct (decide (tipId head = key)) as [<-|Hne].
      * rewrite lookup_insert_eq in Hold. injection Hold as <-.
        right. split_and!; [left|done|done].
      * rewrite lookup_insert_ne in Hold by done. by left.
    + right. split_and!; [by right|done|done].
Qed.

(** The map of a constructed configuration is empty, or is what the loop
    made of the loaded list. *)
Lemma new_tipMap fs configFilename this :
  new fs configFilename = Return this →
  (_tipMap this = ∅ ∧ ∀ tips, customTips (configuration this) = Some tips → tips = [])
  ∨ ∃ tips,
      customTips (configuration this) = Some tips
      ∧ registerTips configFilename tips ∅ = Return (_tipMap this).
Proof.
  unfold new. destruct (negb (fileExists fs configFilename)).
  - intros [= <-]. left. split; [done|]. discriminate.
  - destruct (loadAndValidate fs configFilename) as [loaded|error]; cbn [bind];
      [|discriminate].
    destruct (customTips loaded) as [tips|] eqn:Htips.
    + destruct (registerTips configFilename tips ∅) as [tipMap|error] eqn:Hloop;
        cbn [bind]; [|discriminate].
      intros [= <-]. right. by exists tips.
    + intros [= <-]. left. split; [done|]. cbn. rewrite Htips. discriminate.
Qed.

(** In a constructed configuration every entry of the tip map sits under
    its own identifier, is an item of the loaded list, and its identifier
    has passed the [in] test. *)
Theorem constructor_map_keyed_by_id fs configFilename this key item :
  new fs configFilename = Return this →
  _tipMap this !! key = Some item →
  tipId item = key
  ∧ inCustomTipId key = true
  ∧ ∃ tips, customTips (configuration this) = Some tips ∧ item ∈ tips.
Proof.
  intros Hnew Hkey.
  destruct (new_tipMap _ _ _ Hnew) as [[Hempty _]|(tips & Htips & Hloop)].
  - by rewrite Hempty, lookup_empty in Hkey.
  - destruct (registerTips_entries _ _ _ _ Hloop key item Hkey)
      as [Hnone|(Hin & Hid & Hok)].
    + by rewrite lookup_empty in Hnone.
    + split_and!; [done|done|]. by exists tips.
Qed.

End Constructor.

(** *** Constructing, then showing *)

Section ConstructedAndShown.
Context {FS : Type} {fileSystem : FileSystem FS} {tipsLoader : CustomTipsJsonLoader FS}
  {path : Path} {printUtilities : PrintUtilities}.

(** A tip listed in the configuration file is the one shown for its
    identifier: at the registered severity its message lines appear under
    the header, each behind the margin. *)
Theorem constructed_tip_is_shown fs configFilename this tips item terminal id :
  new fs configFilename = Return this →
  customTips (configuration this) = Some tips →
  item ∈ tips →
  tipId item = idString id →
  display (_showTip this terminal id)
  = display terminal
    +:+ ("| Custom Tip (" +:+ idString id +:+ ")" +:+ LF +:+ "|" +:+ LF)
    +:+ framed "| " (messageLines item)
    +:+ LF.
Proof.
  intros Hnew Htips Hin Hid.
  assert (_tipMap this !! idString id = Some item) as Hentry.
  { destruct (new_tipMap _ _ _ Hnew) as [[_ Hnil]|(tips' & Htips' & Hloop)].
    - rewrite (Hnil tips Htips) in Hin. by apply elem_of_nil in Hin.
    - rewrite Htips in Htips'. injection Htips' as <-.
      pose proof (registerTips_return_inv _ _ _ _ Hloop) as (Hknown & Hnodup & Hfresh).
      destruct (registerTips_return configFilename tips ∅ Hknown Hnodup Hfresh)
        as (tipMap' & Hloop' & Hall & _).
      rewrite Hloop in Hloop'. injection Hloop' as <-.
      rewrite <- Hid. by apply Hall. }
  rewrite showTip_severity. unfold _showErrorTip.
  by rewrite (writeMessageWithPipes_display _ _ _ _ _ Hentry).
Qed.

(** An identifier the configuration file does not list is never shown,
    at any severity. *)
Theorem constructed_without_tip_shows_nothing fs configFilename this terminal id :
  new fs configFilename = Return this →
  (∀ tips item,
     customTips (configuration this) = Some tips → item ∈ tips →
     tipId item ≠ idString id) →
  _showTip this terminal id = terminal
  ∧ _showInfoTip this terminal id = terminal
  ∧ _showWarningTip this terminal id = terminal
  ∧ _showErrorTip this terminal id = terminal.
Proof.
  intros Hnew Hnone.
  assert (_tipMap this !! idString id = None) as Hentry.
  { destruct (_tipMap this !! idString id) as [item|] eqn:Hentry; [|done].
    destruct (new_tipMap _ _ _ Hnew) as [[Hempty _]|(tips & Htips & Hloop)].
    - by rewrite Hempty, lookup_empty in Hentry.
    - destruct (registerTips_entries _ _ _ _ Hloop _ item Hentry)
        as [Hold|(Hin & Hid & _)].
      + by rewrite lookup_empty in Hold.
      + by destruct (Hnone tips item Htips Hin). }
  unfold _showTip, _showInfoTip, _showWarningTip, _showErrorTip.
  rewrite Hentry. by rewrite !writeMessageWithPipes_undefined.
Qed.

End ConstructedAndShown.

(** *** On the reference collaborators *)

Section OnReference.
Import Reference Scenarios.

Lemma show_nothing_without_message_witness :
  _tipMap oneTip !! idString TIP_PNPM_PEER_DEP_ISSUES = None
  ∧ @_showTip wideTerminal oneTip [write "earlier"] TIP_PNPM_PEER_DEP_ISSUES
    = [write "earlier"]
  ∧ @_showInfoTip wideTerminal oneTip [write "earlier"] TIP_PNPM_PEER_DEP_ISSUES
    = [write "earlier"]
  ∧ @_showWarningTip wideTerminal oneTip [write "earlier"] TIP_PNPM_PEER_DEP_ISSUES
    = [write "earlier"]
  ∧ @_showErrorTip wideTerminal oneTip [write "earlier"] TIP_PNPM_PEER_DEP_ISSUES
    = [write "earlier"].
Proof.
  split; [reflexivity|].
  apply (show_nothing_without_message (printUtilities := wideTerminal)
           oneTip [write "earlier"] TIP_PNPM_PEER_DEP_ISSUES). reflexivity.
Defined.

Lemma show_tip_framed_witness :
  _tipMap oneTip !! idString TIP_RUSH_INCONSISTENT_VERSIONS = Some inconsistentVersionsTip
  ∧ display (@_showWarningTip wideTerminal oneTip [] TIP_RUSH_INCONSISTENT_VERSIONS)
    = "| Custom Tip (TIP_RUSH_INCONSISTENT_VERSIONS)" +:+ LF
      +:+ "|" +:+ LF
      +:+ "| Run rush update." +:+ LF
      +:+ "| Then commit." +:+ LF
      +:+ LF.
Proof.
  split; [reflexivity|].
  exact (proj2 (proj2 (show_tip_framed (printUtilities := wideTerminal)
                         oneTip [] TIP_RUSH_INCONSISTENT_VERSIONS inconsistentVersionsTip
                         eq_refl))).
Defined.

Lemma constructor_without_file_witness :
  fileExists (FileSystem := memoryFileSystem) ∅ customTipsPath = false
  ∧ newCustomTips ∅ customTipsPath
    = Return {| _tipMap := ∅; _jsonFileName := customTipsPath;
                configuration := {| customTips := None |} |}.
Proof.
  split; [reflexivity|].
  apply (constructor_without_file (fileSystem := memoryFileSystem)
           (tipsLoader := customTipsLoader) (path := posixPath) ∅ customTipsPath).
  reflexivity.
Defined.

Lemma constructor_load_failure_witness :
  fileExists (FileSystem := memoryFileSystem) brokenCustomTipsFile customTipsPath = true
  ∧ loadAndValidate (CustomTipsJsonLoader := customTipsLoader)
      brokenCustomTipsFile customTipsPath = Throw notJson
  ∧ newCustomTips brokenCustomTipsFile customTipsPath = Throw notJson.
Proof.
  split_and!; [reflexivity|reflexivity|].
  apply (constructor_load_failure (fileSystem := memoryFileSystem)
           (tipsLoader := customTipsLoader) (path := posixPath)
           brokenCustomTipsFile customTipsPath notJson); reflexivity.
Defined.

Lemma constructor_first_offender_witness :
  fileExists (FileSystem := memoryFileSystem) customTipsFile customTipsPath = true
  ∧ Forall (fun earlier => inCustomTipId (tipId earlier) = true) [inconsistentVersionsTip]
  ∧ NoDup (tipId <$> [inconsistentVersionsTip])
  ∧ inCustomTipId (tipId unknownTip) = false
  ∧ @new _ memoryFileSystem
      (fixedTips ([inconsistentVersionsTip] ++ unknownTip :: [inconsistentVersionsTip]))
      posixPath customTipsFile customTipsPath
    = Throw (NewError (unknownIdMessage (path := posixPath) customTipsPath
                         (tipId unknownTip))).
Proof.
  assert (Forall (fun earlier => inCustomTipId (tipId earlier) = true)
            [inconsistentVersionsTip]) as Hknown by (by repeat constructor).
  assert (NoDup (tipId <$> [inconsistentVersionsTip])) as Hnodup
    by apply NoDup_singleton.
  split_and!; [reflexivity|exact Hknown|exact Hnodup|reflexivity|].
  apply (constructor_first_offender (fileSystem := memoryFileSystem)
           (tipsLoader := fixedTips ([inconsistentVersionsTip] ++ unknownTip
                                     :: [inconsistentVersionsTip]))
           (path := posixPath) customTipsFile customTipsPath
           {| customTips := Some ([inconsistentVersionsTip] ++ unknownTip
                                  :: [inconsistentVersionsTip]) |}
           [inconsistentVersionsTip] unknownTip [inconsistentVersionsTip]
           eq_refl eq_refl eq_refl Hknown Hnodup).
  reflexivity.
Defined.

Lemma constructor_map_keyed_by_id_witness :
  newCustomTips customTipsFile customTipsPath = Return oneTip
  ∧ _tipMap oneTip !! "TIP_RUSH_INCONSISTENT_VERSIONS" = Some inconsistentVersionsTip
  ∧ tipId inconsistentVersionsTip = "TIP_RUSH_INCONSISTENT_VERSIONS"
  ∧ inCustomTipId "TIP_RUSH_INCONSISTENT_VERSIONS" = true.
Proof.
  assert (newCustomTips customTipsFile customTipsPath = Return oneTip) as Hnew
    by reflexivity.
  destruct (constructor_map_keyed_by_id (fileSystem := memoryFileSystem)
              (tipsLoader := customTipsLoader) (path := posixPath)
              customTipsFile customTipsPath oneTip "TIP_RUSH_INCONSISTENT_VERSIONS"
              inconsistentVersionsTip Hnew eq_refl) as (Hid & Hok & _).
  split_and!; [exact Hnew|reflexivity|exact Hid|exact Hok].
Defined.

Lemma constructed_tip_is_shown_witness :
  newCustomTips customTipsFile customTipsPath = Return oneTip
  ∧ customTips (configuration oneTip) = Some [inconsistentVersionsTip]
  ∧ tipId inconsistentVersionsTip = idString TIP_RUSH_INCONSISTENT_VERSIONS
  ∧ display (@_showTip wideTerminal oneTip [] TIP_RUSH_INCONSISTENT_VERSIONS)
    = "| Custom Tip (TIP_RUSH_INCONSISTENT_VERSIONS)" +:+ LF
      +:+ "|" +:+ LF
      +:+ "| Run rush update." +:+ LF
      +:+ "| Then commit." +:+ LF
      +:+ LF.
Proof.
  split_and!; [reflexivity|reflexivity|reflexivity|].
  apply (constructed_tip_is_shown (fileSystem := memoryFileSystem)
           (tipsLoader := customTipsLoader) (path := posixPath)
           (printUtilities := wideTerminal)
           customTipsFile customTipsPath oneTip [inconsistentVersionsTip]
           inconsistentVersionsTip [] TIP_RUSH_INCONSISTENT_VERSIONS);
    [reflexivity|reflexivity|apply list_elem_of_singleton; reflexivity|reflexivity].
Defined.

Lemma constructed_without_tip_shows_nothing_witness :
  newCustomTips customTipsFile customTipsPath = Return oneTip
  ∧ @_showTip wideTerminal oneTip [] TIP_PNPM_PEER_DEP_ISSUES = []
  ∧ @_showInfoTip wideTerminal oneTip [] TIP_PNPM_PEER_DEP_ISSUES = []
  ∧ @_showWarningTip wideTerminal oneTip [] TIP_PNPM_PEER_DEP_ISSUES = []
  ∧ @_showErrorTip wideTerminal oneTip [] TIP_PNPM_PEER_DEP_ISSUES = [].
Proof.
  split; [reflexivity|].
  apply (constructed_without_tip_shows_nothing (fileSystem := memoryFileSystem)
           (tipsLoader := customTipsLoader) (path := posixPath)
           (printUtilities := wideTerminal)
           customTipsFile customTipsPath oneTip [] TIP_PNPM_PEER_DEP_ISSUES);
    [reflexivity|].
  intros tips item [= <-] ->%list_elem_of_singleton. discriminate.
Defined.

End OnReference.

End CustomTipsFurther.

(** ** Properties of the JSON reader and writer *)

Module ReferenceProperties.
Import Reference.

Lemma append_cons c a b : String c a +:+ b = String c (a +:+ b).
Proof. reflexivity. Qed.

Lemma append_empty b : EmptyString +:+ b = b.
Proof. reflexivity. Qed.

Ltac flatten_append := repeat (rewrite CustomTipsProperties.append_assoc || rewrite append_cons || rewrite append_empty).

Lemma readString_escape s rest :
  readString (escape s +:+ String "034" rest) = Some (s, rest).
Proof.
  induction s as [|c s IH]; [reflexivity|].
  cbn [escape]. unfold escapeChar.
  destruct (Ascii.eqb_spec c "034") as [->|H1].
  { unfold BACKSLASH, DQUOTE. flatten_append. cbn. by rewrite IH. }
  destruct (Ascii.eqb_spec c "092") as [->|H2].
  { unfold BACKSLASH. flatten_append. cbn. by rewrite IH. }
  destruct (Ascii.eqb_spec c "010") as [->|H3].
  { unfold BACKSLASH. flatten_append. cbn. by rewrite IH. }
  destruct (Ascii.eqb_spec c "013") as [->|H4].
  { unfold BACKSLASH. flatten_append. cbn. by rewrite IH. }
  destruct (Ascii.eqb_spec c "009") as [->|H5].
  { unfold BACKSLASH. flatten_append. cbn. by rewrite IH. }
  flatten_append. cbn [readString].
  rewrite (proj2 (Ascii.eqb_neq _ _) H1), (proj2 (Ascii.eqb_neq _ _) H3),
    (proj2 (Ascii.eqb_neq _ _) H2).
  by rewrite IH.
Qed.


Lemma skipBlanks_stop fuel c s :
  isBlank c = false → c ≠ "/"%char → skipBlanks fuel (String c s) = String c s.
Proof.
  intros Hblank Hslash. destruct fuel as [|fuel]; [reflexivity|].
  cbn [skipBlanks].
  destruct c as [[] [] [] [] [] [] [] []]; try reflexivity; try discriminate Hblank.
  by destruct Hslash.
Qed.

Lemma skip_stop c s :
  isBlank c = false → c ≠ "/"%char → skip (String c s) = String c s.
Proof. intros. by apply skipBlanks_stop. Qed.

Lemma skip_space s : skip (String " " s) = skip s.
Proof. reflexivity. Qed.

Lemma skip_newline s : skip (String "010" s) = skip s.
Proof. reflexivity. Qed.

Lemma skipLine_append line rest :
  lineFree line = true → skipLine (line +:+ String "010" rest) = rest.
Proof.
  induction line as [|c line IH]; [reflexivity|].
  cbn [lineFree]. intros [Hc Hline]%andb_true_iff.
  rewrite append_cons. cbn [skipLine].
  destruct (Ascii.eqb c "010"); [discriminate Hc|]. by apply IH.
Qed.

Lemma skip_comment line c body :
  lineFree line = true → isBlank c = false → c ≠ "/"%char →
  skip (String "/" (String "/" line) +:+ String "010" (String c body)) = String c body.
Proof.
  intros Hline Hblank Hslash. unfold skip. rewrite !append_cons.
  set (rest := line +:+ String "010" (String c body)).
  change (String.length (String "/" (String "/" rest))) with (S (S (String.length rest))).
  generalize (S (String.length rest)). intros fuel.
  cbn [skipBlanks]. subst rest. rewrite skipLine_append by done.
  by apply skipBlanks_stop.
Qed.

Lemma skip_banner c body :
  isBlank c = false → c ≠ "/"%char →
  skip (RepoStateFile.banner +:+ String "010" (String c body)) = String c body.
Proof. intros. by apply skip_comment. Qed.

Lemma readValue_string fuel s rest :
  readValue (S fuel) (String " " (String "034" (escape s +:+ String "034" rest)))
  = Some (JString s, rest).
Proof.
  cbn [readValue]. rewrite skip_space, skip_stop by (done || discriminate).
  by rewrite readString_escape.
Qed.

Lemma readMembers_string fuel acc key value rest :
  readMembers (S (S fuel)) acc
    (String "034" (escape key +:+ String "034" (String ":"
       (String " " (String "034" (escape value +:+ String "034" rest))))))
  = match skip rest with
    | String "," more => readMembers (S fuel) ((key, JString value) :: acc) (skip more)
    | String "}" done => Some (JObject (rev ((key, JString value) :: acc)), done)
    | _ => None
    end.
Proof.
  cbn [readMembers]. rewrite readString_escape.
  rewrite skip_stop by (done || discriminate).
  by rewrite readValue_string.
Qed.

Lemma banner_length rest :
  ∃ n, String.length (RepoStateFile.banner +:+ rest) = S (S (S (S n))).
Proof. unfold RepoStateFile.banner. rewrite !append_cons. cbn [String.length]. eauto. Qed.

Lemma readValue_object fuel s rest :
  skip s = String "{" rest → readValue (S fuel) s = readMembers fuel [] (skip rest).
Proof. intros Hskip. cbn [readValue]. by rewrite Hskip. Qed.

Lemma readJson_value text v rest :
  readValue (S (String.length text)) text = Some (v, rest) →
  skip rest = EmptyString →
  readJson text = Return v.
Proof. intros Hvalue Hrest. unfold readJson. by rewrite Hvalue, Hrest. Qed.

Lemma readJson_object members :
  Forall (fun member => ∃ text, member.2 = JString text) members →
  (length members ≤ 2)%nat →
  readJson (RepoStateFile.banner +:+ LF +:+ writeJson (JObject members) (Some Lf))
  = Return (JObject members).
Proof.
  intros Hstrings Hlength.
  apply readJson_value with (rest := String "010" EmptyString); [|reflexivity].
  destruct (banner_length (LF +:+ writeJson (JObject members) (Some Lf))) as [n ->].
  unfold writeJson, LF.
  destruct members as [|[key1 value1] [|[key2 value2] [|]]]; [| | |cbn in Hlength; lia].
  - cbn [stringifyAt]. flatten_append.
    rewrite (readValue_object _ _ _ (skip_banner "{" _ eq_refl ltac:(discriminate))).
    reflexivity.
  - apply Forall_cons in Hstrings as [[text1 Htext1] _]. cbn in Htext1. subst value1.
    cbn [stringifyAt map joinLines spaces Nat.add]. unfold quoted, DQUOTE, LF. flatten_append.
    rewrite (readValue_object _ _ _ (skip_banner "{" _ eq_refl ltac:(discriminate))).
    rewrite skip_newline, !skip_space, skip_stop by (reflexivity || discriminate).
    rewrite readMembers_string. rewrite skip_newline, skip_stop by (reflexivity || discriminate).
    reflexivity.
  - apply Forall_cons in Hstrings as [[text1 Htext1] Hstrings].
    apply Forall_cons in Hstrings as [[text2 Htext2] _]. cbn in Htext1, Htext2. subst value1 value2.
    cbn [stringifyAt map joinLines spaces Nat.add]. unfold quoted, DQUOTE, LF. flatten_append.
    rewrite (readValue_object _ _ _ (skip_banner "{" _ eq_refl ltac:(discriminate))).
    rewrite skip_newline, !skip_space, skip_stop by (reflexivity || discriminate).
    rewrite readMembers_string. rewrite skip_stop by (reflexivity || discriminate).
    rewrite skip_newline, !skip_space, skip_stop by (reflexivity || discriminate).
    rewrite readMembers_string. rewrite skip_newline, skip_stop by (reflexivity || discriminate).
    reflexivity.
Qed.

Lemma readJson_fileContent (this : RepoStateFile.t) :
  readJson (RepoStateFile.fileContent (jsonFile := jsonFile) this)
  = Return (RepoStateFile.serializedJson this).
Proof.
  unfold RepoStateFile.fileContent, RepoStateFile._serialize, RepoStateFile.serializedJson.
  cbn [stringify jsonFile]. apply readJson_object.
  - apply Forall_app. split.
    + destruct (RepoStateFile._pnpmShrinkwrapHash this) as [[|c hash]|]; cbn; repeat constructor; eauto.
    + destruct (RepoStateFile._preferredVersionsHash this) as [[|c hash]|]; cbn; repeat constructor; eauto.
  - rewrite length_app.
    destruct (RepoStateFile._pnpmShrinkwrapHash this) as [[|c hash]|],
      (RepoStateFile._preferredVersionsHash this) as [[|c' hash']|]; cbn; lia.
Qed.

End ReferenceProperties.

(** ** Properties of the persisted record *)

Module PersistedRecordProperties.
Import RepoStateFile Reference Persisted Scenarios.
Import RepoStateFileProperties RepoStateFileFurther ReferenceProperties.

Lemma persistedRecord_written fs (this : t) :
  persistedRecord (<[filePath this := fileContent (jsonFile := jsonFile) this]> fs)
    (filePath this)
  = Some (serializedJson this).
Proof.
  unfold persistedRecord. cbn [readFile memoryFileSystem]. rewrite lookup_insert_eq.
  cbn [parseString jsonFile]. by rewrite readJson_fileContent.
Qed.


Section Refresh.
Context {lockfileLoader : PnpmShrinkwrapFileLoader}.




End Refresh.

(** C7, amended.  For every tracker state none of whose hashes is the
    empty string: marked modified and saved, the tracker is written to its
    state file, and [loadFromFile] on that file returns a valid tracker
    with the same two hashes, hence the same field set and values; the
    record read from the file is the record that was serialized. *)
Theorem saved_record_reloads (this : t) fs variant :
  pnpmShrinkwrapHash this ≠ Some EmptyString →
  preferredVersionsHash this ≠ Some EmptyString →
  ∃ fs' loaded,
    save (set_modified this true) fs = (Return true, set_modified this false, fs')
    ∧ fs' !! filePath this
      = Some (banner +:+ LF +:+ writeJson (serializedJson this) (Some Lf))
    ∧ persistedRecord fs' (filePath this) = Some (serializedJson this)
    ∧ load fs' (filePath this) variant = Return loaded
    ∧ pnpmShrinkwrapHash loaded = pnpmShrinkwrapHash this
    ∧ preferredVersionsHash loaded = preferredVersionsHash this
    ∧ isValid loaded = true
    ∧ serializedJson loaded = serializedJson this.
Proof.
  intros Hp Hv.
  destruct (save_then_load_round_trip (fileSystem := memoryFileSystem) (jsonFile := jsonFile)
              (set_modified this true) fs
              (<[filePath this := fileContent (jsonFile := jsonFile) this]> fs) variant)
    as (saved & loaded & Hsave & Hload & Hp' & Hv' & Hvalid & Hrecord);
    [exact Hp|exact Hv|reflexivity|reflexivity| | |].
  { cbn [readFile memoryFileSystem]. change (filePath (set_modified this true)) with (filePath this).
    by rewrite lookup_insert_eq. }
  { apply (readJson_fileContent (set_modified this true)). }
  exists (<[filePath this := fileContent (jsonFile := jsonFile) this]> fs), loaded.
  split_and!; [reflexivity| |apply persistedRecord_written|exact Hload|exact Hp'|exact Hv'
               |exact Hvalid|exact Hrecord].
  by rewrite lookup_insert_eq.
Qed.

(** *** On the scenarios *)



Lemma saved_record_reloads_witness :
  pnpmShrinkwrapHash (tracker (Some awkwardHash) (Some "v1")) ≠ Some EmptyString
  ∧ preferredVersionsHash (tracker (Some awkwardHash) (Some "v1")) ≠ Some EmptyString
  ∧ ∃ fs' loaded,
      save (set_modified (tracker (Some awkwardHash) (Some "v1")) true) ∅
      = (Return true, tracker (Some awkwardHash) (Some "v1"), fs')
      ∧ fs' !! repoStatePath
        = Some (banner +:+ LF
                +:+ "{" +:+ LF
                +:+ "  " +:+ DQUOTE +:+ "pnpmShrinkwrapHash" +:+ DQUOTE +:+ ": "
                +:+ DQUOTE +:+ "a" +:+ BACKSLASH +:+ DQUOTE +:+ "b" +:+ BACKSLASH
                +:+ BACKSLASH +:+ "c" +:+ BACKSLASH +:+ "nd" +:+ DQUOTE +:+ "," +:+ LF
                +:+ "  " +:+ DQUOTE +:+ "preferredVersionsHash" +:+ DQUOTE +:+ ": "
                +:+ DQUOTE +:+ "v1" +:+ DQUOTE +:+ LF
                +:+ "}" +:+ LF)
      ∧ load fs' repoStatePath None = Return loaded
      ∧ pnpmShrinkwrapHash loaded = Some awkwardHash
      ∧ preferredVersionsHash loaded = Some "v1"
      ∧ isValid loaded = true.
Proof.
  split_and!; [discriminate|discriminate|].
  destruct (saved_record_reloads (tracker (Some awkwardHash) (Some "v1")) ∅ None)
    as (fs' & loaded & Hsave & Hfile & _ & Hload & Hp & Hv & Hvalid & _);
    [discriminate|discriminate|].
  exists fs', loaded.
  split_and!; [exact Hsave|exact Hfile|exact Hload|exact Hp|exact Hv|exact Hvalid].
Defined.

End PersistedRecordProperties.
